(** * video-downloader-cli: command construction and subprocess relay

    A shallow embedding of [app.py] (the interactive front end,
    class [InteractiveVideoDownloader]) and [video_downloader.py] (the
    flag-parsing front end, class [VideoDownloader] and [main]).

    Both programs assemble a list of command-line tokens for the external
    [yt-dlp] executable and hand it to [subprocess.run(cmd, check=True)].
    The embedding keeps the token list a [list string], threads the
    effects of the code (subprocess calls, printed lines, the instance
    attribute [cookies_path], [sys.exit] and exceptions) through a small
    state-and-outcome monad, and reads the file system, the behaviour of
    the external process and the user's answers from an explicit
    environment. *)

From Stdlib Require Import String Ascii List ZArith Bool Lia.
Import ListNotations.

Local Open Scope string_scope.
Local Open Scope list_scope.

(** ** Python values *)

(** Truth value of a [str]: only the empty string is falsy. *)
Definition str_truthy (s : string) : bool := negb (String.eqb s "").

(** Truth value of an [Optional[str]]: [None] and [""] are falsy. *)
Definition opt_truthy (o : option string) : bool :=
  match o with
  | Some s => str_truthy s
  | None => false
  end.

(** Truth value of an [Optional[List[str]]]: [None] and [[]] are falsy. *)
Definition list_truthy (o : option (list string)) : bool :=
  match o with
  | Some (_ :: _) => true
  | _ => false
  end.

(** [x in l] for a list of strings. *)
Definition str_in (x : string) (l : list string) : bool :=
  existsb (String.eqb x) l.

(** [x in o] where [o] is known to be truthy at every use in the source;
    on [None] Python would raise, and the source never evaluates it there. *)
Definition opt_list (o : option (list string)) : list string :=
  match o with
  | Some l => l
  | None => []
  end.

(** The value read from an [Optional[str]] that has tested truthy. *)
Definition opt_str (o : option string) : string :=
  match o with
  | Some s => s
  | None => ""
  end.

(** Characters on which [str.split()] without arguments splits, for
    ASCII text: tab, line feed, vertical tab, form feed, carriage return,
    the four separators 0x1c-0x1f and the space. *)
Definition is_space (c : ascii) : bool :=
  let n := nat_of_ascii c in
  (Nat.leb 9 n && Nat.leb n 13) || (Nat.leb 28 n && Nat.leb n 32).

(** [text.split()]: the maximal runs of non-space characters, in order.
    [cur] is the run being read, kept reversed. *)
Fixpoint split_from (cur : list ascii) (s : string) : list string :=
  match s with
  | EmptyString =>
      match cur with
      | [] => []
      | _ => [string_of_list_ascii (rev cur)]
      end
  | String c rest =>
      if is_space c then
        match cur with
        | [] => split_from [] rest
        | _ => string_of_list_ascii (rev cur) :: split_from [] rest
        end
      else split_from (c :: cur) rest
  end.

Definition split (s : string) : list string := split_from [] s.

(** ** The environment of a run *)

(** What [subprocess.run] meets: the program ran and left an exit status,
    or the executable could not be started. *)
Inductive proc_result : Type :=
  | Exited (returncode : Z)
  | NoSuchProgram.

(** The file system as [Path(p).exists()] sees it, and the external
    program: its result may depend on the commands run before it. *)
Record world : Type := {
  path_exists : string -> bool;
  run_result : list (list string) -> list string -> proc_result
}.

(** ** Effects *)

Inductive exn : Type :=
  | CalledProcessError (cmd : list string) (returncode : Z)
  | FileNotFoundError (cmd : list string)
  | IndexError.

(** A printed line: literal text, a prefix followed by the rendering of
    an exception (as in [print(f"Error downloading video: {e}")]), or
    [s.center(width)]. *)
Inductive line : Type :=
  | Text (s : string)
  | TextExn (prefix : string) (e : exn)
  | Centered (s : string) (width : nat).

Inductive outcome (A : Type) : Type :=
  | Ret (a : A)
  | Exit (code : Z)
  | Raise (e : exn).
Arguments Ret {A} a.
Arguments Exit {A} code.
Arguments Raise {A} e.

(** The mutable state of a run: the [cookies_path] attribute of the
    downloader instance (only [InteractiveVideoDownloader] has it), the
    commands handed to [subprocess.run] so far, and the lines printed. *)
Record state : Type := {
  cookies_path : option string;
  calls : list (list string);
  stdout : list line
}.

Definition init_state : state :=
  {| cookies_path := None; calls := []; stdout := [] |}.

Definition M (A : Type) : Type := state -> outcome A * state.

Definition ret {A} (a : A) : M A := fun s => (Ret a, s).

Definition bind {A B} (m : M A) (k : A -> M B) : M B :=
  fun s =>
    match m s with
    | (Ret a, s') => k a s'
    | (Exit c, s') => (Exit c, s')
    | (Raise e, s') => (Raise e, s')
    end.

Notation "x <- m ;; k" := (bind m (fun x => k))
  (at level 61, m at next level, right associativity).
Notation "m ;; k" := (bind m (fun _ => k))
  (at level 61, right associativity).

(** [try: body except <handled>: handler]. [handles e] tells whether the
    [except] clause matches; [sys.exit] is not an exception any clause of
    the source catches. *)
Definition try_except {A} (body : M A) (handles : exn -> bool)
    (handler : exn -> M A) : M A :=
  fun s =>
    match body s with
    | (Raise e, s') => if handles e then handler e s' else (Raise e, s')
    | r => r
    end.

Definition sys_exit {A} (code : Z) : M A := fun s => (Exit code, s).

Definition raise {A} (e : exn) : M A := fun s => (Raise e, s).

(** The state after one more printed line, and after one more command
    handed to [subprocess.run]. *)
Definition log_line (l : line) (s : state) : state :=
  {| cookies_path := cookies_path s;
     calls := calls s;
     stdout := stdout s ++ [l] |}.

Definition log_call (cmd : list string) (s : state) : state :=
  {| cookies_path := cookies_path s;
     calls := calls s ++ [cmd];
     stdout := stdout s |}.

Definition print (l : line) : M unit := fun s => (Ret tt, log_line l s).

Definition get_cookies_path : M (option string) :=
  fun s => (Ret (cookies_path s), s).

Definition set_cookies_path (p : option string) : M unit :=
  fun s =>
    (Ret tt, {| cookies_path := p; calls := calls s; stdout := stdout s |}).

(** The exit status the operating system sees when the script ends with
    this outcome: 0 after a normal return, the argument of [sys.exit], and
    1 after an exception nobody caught. *)
Definition exit_status {A} (o : outcome A) : Z :=
  match o with
  | Ret _ => 0
  | Exit c => c
  | Raise _ => 1
  end.

Section Subprocess.

Variable w : world.

(** [subprocess.run(cmd, check=True)]: the call is synchronous; a
    nonzero return code raises [CalledProcessError], a missing
    executable raises [FileNotFoundError]. *)
Definition subprocess_run (cmd : list string) : M unit :=
  fun s =>
    let s' := log_call cmd s in
    match run_result w (calls s) cmd with
    | Exited rc =>
        if (rc =? 0)%Z then (Ret tt, s')
        else (Raise (CalledProcessError cmd rc), s')
    | NoSuchProgram => (Raise (FileNotFoundError cmd), s')
    end.

(** [Path(p).exists()]. *)
Definition exists_path (p : string) : M bool :=
  fun s => (Ret (path_exists w p), s).

End Subprocess.

(** [except subprocess.CalledProcessError]. *)
Definition is_called_process_error (e : exn) : bool :=
  match e with
  | CalledProcessError _ _ => true
  | _ => false
  end.

(** [except (subprocess.CalledProcessError, FileNotFoundError)]. *)
Definition is_called_process_or_not_found (e : exn) : bool :=
  match e with
  | CalledProcessError _ _ | FileNotFoundError _ => true
  | IndexError => false
  end.

(** The line feed, written [\n] in the source's literals. *)
Definition nl : string := String (ascii_of_nat 10) "".

(** [s * n] for a string. *)
Fixpoint str_mul (s : string) (n : nat) : string :=
  match n with
  | O => ""
  | S k => s ++ str_mul s k
  end.

(** [cmd.extend(l)] and [cmd.append(x)] on the list under construction. *)
Definition extend (cmd l : list string) : list string := cmd ++ l.
Definition append (cmd : list string) (x : string) : list string := cmd ++ [x].

(** [l] occurs in [cmd] as a run of consecutive tokens. *)
Definition consecutive (l cmd : list string) : Prop :=
  exists pre post, cmd = pre ++ l ++ post.


(** ** Provenance of tokens

    A token of the command is either a literal of the source ([Fixed]) or
    a string copied from an argument ([Given]).  The builders below are
    restated with this tag so that a property of the command can tell
    the flags the program emits from the values it passes through. *)
Inductive token : Type :=
  | Fixed (s : string)
  | Given (s : string).

Definition text (t : token) : string :=
  match t with
  | Fixed s => s
  | Given s => s
  end.

Definition fixed_of (l : list token) : list string :=
  flat_map (fun t => match t with Fixed s => [s] | Given _ => [] end) l.

Definition given_of (l : list token) : list string :=
  flat_map (fun t => match t with Fixed _ => [] | Given s => [s] end) l.

(** ** app.py: the interactive front end *)

Module App.

(** The list [cookie_files] of [find_cookies_file]. *)
Definition cookie_files : list string :=
  ["www.youtube.com_cookies.txt"; "youtube.com_cookies.txt"; "cookies.txt"].

(** The choices of [prompt_download_type] and their values. *)
Inductive type_choice : Type :=
  | VideoBest | AudioOnly | CustomFormat | ListFirst.

Definition type_value (c : type_choice) : string :=
  match c with
  | VideoBest => "video"
  | AudioOnly => "audio"
  | CustomFormat => "custom"
  | ListFirst => "list"
  end.

(** The choices of [prompt_extra_options] and their values. *)
Inductive extra_choice : Type :=
  | Subtitles | Playlist | Metadata | Thumbnail | SponsorBlock.

Definition extra_value (c : extra_choice) : string :=
  match c with
  | Subtitles => "subtitles"
  | Playlist => "playlist"
  | Metadata => "metadata"
  | Thumbnail => "thumbnail"
  | SponsorBlock => "sponsorblock"
  end.

(** The choices of [prompt_browser_cookies]. *)
Inductive browser_choice : Type :=
  | Chrome | Firefox | Edge | Brave | Opera | Safari.

Definition browser_value (c : browser_choice) : string :=
  match c with
  | Chrome => "chrome"
  | Firefox => "firefox"
  | Edge => "edge"
  | Brave => "brave"
  | Opera => "opera"
  | Safari => "safari"
  end.

(** What the user answers to each prompt of a run, in program order.
    A prompt that the run does not reach leaves its answer unused. *)
Record answers : Type := {
  ans_url : string;
  ans_download_type : type_choice;
  ans_list_use_cookies : bool;
  ans_download_type_again : type_choice;
  ans_use_cookies : bool;
  ans_want_browser : bool;
  ans_browser : browser_choice;
  ans_output_template : string;
  ans_extra_options : list extra_choice;
  ans_subtitle_langs : string;
  ans_confirm : bool;
  ans_format_choice : string
}.

(** The keyword arguments of [download]. *)
Record request : Type := {
  urls : list string;
  download_type : string;
  output_template : string;
  extra_options : option (list string);
  subtitle_langs : string;
  use_cookies : bool;
  browser_cookies : option string
}.

(** [download(urls)] with every default of the signature. *)
Definition default_request (us : list string) : request :=
  {| urls := us;
     download_type := "video";
     output_template := "%(title)s.%(ext)s";
     extra_options := None;
     subtitle_langs := "en";
     use_cookies := false;
     browser_cookies := None |}.

Definition best_video : string :=
  "bestvideo[ext=mp4]+bestaudio[ext=m4a]/best[ext=mp4]".

(** The loop of [find_cookies_file]: the first name that exists. *)
Fixpoint first_existing (exists_ : string -> bool) (files : list string)
    : option string :=
  match files with
  | [] => None
  | file :: rest =>
      if exists_ file then Some file else first_existing exists_ rest
  end.

Definition find_cookies_file (w : world) : option string :=
  first_existing (path_exists w) cookie_files.

(** The blocks of [download], each taking the list [cmd] built so far
    and returning it extended.  [self_cookies] is [self.cookies_path]. *)

(** [# Authentication] *)
Definition add_authentication (self_cookies : option string) (r : request)
    (cmd : list string) : list string :=
  if use_cookies r && opt_truthy self_cookies then
    extend cmd ["--cookies"; opt_str self_cookies]
  else if opt_truthy (browser_cookies r) then
    extend cmd ["--cookies-from-browser"; opt_str (browser_cookies r)]
  else cmd.

(** [# Format selection]; [format_choice] is the answer to the prompt
    that the custom type asks. *)
Definition add_format_selection (format_choice : string) (r : request)
    (cmd : list string) : list string :=
  if download_type r =? "video" then extend cmd ["-f"; best_video]
  else if download_type r =? "audio" then
    extend cmd ["--extract-audio"; "--audio-format"; "mp3"]
  else if download_type r =? "custom" then extend cmd ["-f"; format_choice]
  else cmd.

(** [# Output template] *)
Definition add_output_template (r : request) (cmd : list string)
    : list string :=
  if str_truthy (output_template r) then
    extend cmd ["-o"; output_template r]
  else cmd.

(** [# Extra options] *)
Definition add_extra_options (r : request) (cmd : list string)
    : list string :=
  if list_truthy (extra_options r) then
    let opts := opt_list (extra_options r) in
    let cmd :=
      if str_in "subtitles" opts then
        extend cmd ["--write-subs"; "--sub-langs"; subtitle_langs r]
      else cmd in
    let cmd :=
      if negb (str_in "playlist" opts) then append cmd "--no-playlist"
      else cmd in
    let cmd :=
      if str_in "metadata" opts then append cmd "--add-metadata" else cmd in
    let cmd :=
      if str_in "thumbnail" opts then append cmd "--embed-thumbnail"
      else cmd in
    let cmd :=
      if str_in "sponsorblock" opts then append cmd "--sponsorblock-remove"
      else cmd in
    cmd
  else cmd.

(** The token list [cmd] as [download] holds it when it reaches
    [subprocess.run]. *)
Definition download_cmd (self_cookies : option string)
    (format_choice : string) (r : request) : list string :=
  let cmd := ["yt-dlp"] in
  let cmd := add_authentication self_cookies r cmd in
  let cmd := add_format_selection format_choice r cmd in
  let cmd := add_output_template r cmd in
  let cmd := add_extra_options r cmd in
  extend cmd (urls r).

(** The command of [get_available_formats]. *)
Definition formats_cmd (self_cookies : option string) (url : string)
    (use_cookies : bool) : list string :=
  let cmd := ["yt-dlp"; "-F"; url] in
  if use_cookies && opt_truthy self_cookies then
    extend cmd ["--cookies"; opt_str self_cookies]
  else cmd.

(** The blocks of [download], with provenance: authentication, format
    selection, output template and extra options. *)
Definition auth_part (self_cookies : option string) (r : request)
    : list token :=
  if use_cookies r && opt_truthy self_cookies then
    [Fixed "--cookies"; Given (opt_str self_cookies)]
  else if opt_truthy (browser_cookies r) then
    [Fixed "--cookies-from-browser"; Given (opt_str (browser_cookies r))]
  else [].

Definition format_part (format_choice : string) (r : request)
    : list token :=
  if download_type r =? "video" then [Fixed "-f"; Fixed best_video]
  else if download_type r =? "audio" then
    [Fixed "--extract-audio"; Fixed "--audio-format"; Fixed "mp3"]
  else if download_type r =? "custom" then [Fixed "-f"; Given format_choice]
  else [].

Definition output_part (r : request) : list token :=
  if str_truthy (output_template r) then
    [Fixed "-o"; Given (output_template r)]
  else [].

Definition subtitles_part (r : request) : list token :=
  if str_in "subtitles" (opt_list (extra_options r)) then
    [Fixed "--write-subs"; Fixed "--sub-langs"; Given (subtitle_langs r)]
  else [].

Definition playlist_part (r : request) : list token :=
  if negb (str_in "playlist" (opt_list (extra_options r))) then
    [Fixed "--no-playlist"]
  else [].

Definition flag_if (name flag : string) (r : request) : list token :=
  if str_in name (opt_list (extra_options r)) then [Fixed flag] else [].

Definition extra_part (r : request) : list token :=
  if list_truthy (extra_options r) then
    subtitles_part r ++ playlist_part r
    ++ flag_if "metadata" "--add-metadata" r
    ++ flag_if "thumbnail" "--embed-thumbnail" r
    ++ flag_if "sponsorblock" "--sponsorblock-remove" r
  else [].

Definition download_parts (self_cookies : option string)
    (format_choice : string) (r : request) : list token :=
  Fixed "yt-dlp"
  :: auth_part self_cookies r ++ format_part format_choice r
     ++ output_part r ++ extra_part r ++ map Given (urls r).

(** The literals the builder puts into the command, and the argument
    strings it copies into it. *)
Definition emitted (self_cookies : option string) (format_choice : string)
    (r : request) : list string :=
  fixed_of (download_parts self_cookies format_choice r).

Definition passed (self_cookies : option string) (format_choice : string)
    (r : request) : list string :=
  given_of (download_parts self_cookies format_choice r).

Section Run.

Variable w : world.
Variable user : answers.

Definition check_ytdlp_installed : M unit :=
  try_except
    (subprocess_run w ["yt-dlp"; "--version"])
    is_called_process_or_not_found
    (fun _ =>
       print (Text "❌ Error: yt-dlp not found. Please install it first.") ;;
       print (Text "Installation instructions: https://github.com/yt-dlp/yt-dlp#installation") ;;
       sys_exit 1).

(** [__init__]. *)
Definition init : M unit :=
  check_ytdlp_installed ;;
  set_cookies_path (find_cookies_file w).

Definition prompt_use_cookies (answer : bool) : M bool :=
  self_cookies <- get_cookies_path ;;
  if negb (opt_truthy self_cookies) then ret false else ret answer.

Definition get_available_formats (url : string) (use_cookies : bool)
    : M unit :=
  self_cookies <- get_cookies_path ;;
  let cmd := formats_cmd self_cookies url use_cookies in
  print (Text (nl ++ "📋 Available formats:")) ;;
  try_except
    (subprocess_run w cmd)
    is_called_process_error
    (fun e => print (TextExn "Error getting formats: " e)).

(** [download]: the list is built from the arguments, the attribute
    [self.cookies_path] and, for the custom type, the user's answer
    to the format prompt; then it is run. *)
Definition download (r : request) : M unit :=
  self_cookies <- get_cookies_path ;;
  let cmd := ["yt-dlp"] in
  let cmd := add_authentication self_cookies r cmd in
  let cmd := add_format_selection (ans_format_choice user) r cmd in
  let cmd := add_output_template r cmd in
  let cmd := add_extra_options r cmd in
  let cmd := extend cmd (urls r) in
  try_except
    (subprocess_run w cmd ;;
     print (Text (nl ++ "✅ Download completed successfully!")))
    is_called_process_error
    (fun e =>
       print (TextExn (nl ++ "❌ Error downloading video: ") e) ;;
       sys_exit 1).

(** [urls[0]]. *)
Definition first_url (us : list string) : M string :=
  match us with
  | u :: _ => ret u
  | [] => raise IndexError
  end.

(** The banner that [run_interactive] prints first. *)
Definition banner : M unit :=
  print (Text (nl ++ str_mul "=" 50)) ;;
  print (Centered "🎬 YouTube Video Downloader" 50) ;;
  print (Centered "Interactive CLI for downloading videos from YouTube" 50) ;;
  print (Centered "by @VikumKarunathilake" 50) ;;
  print (Centered "https://elixircraft.net/" 50) ;;
  print (Text (str_mul "=" 50 ++ nl)).

(** [# Step 2: Choose download type]; the type [list] shows the formats
    of the first URL and asks again. *)
Definition choose_download_type (us : list string) : M string :=
  let dtype := type_value (ans_download_type user) in
  if dtype =? "list" then
    url <- first_url us ;;
    uc <- prompt_use_cookies (ans_list_use_cookies user) ;;
    get_available_formats url uc ;;
    ret (type_value (ans_download_type_again user))
  else ret dtype.

(** [# Step 3] to [# Step 5] and the confirmation: authentication,
    output template and extra options are asked for, then [download] is
    called unless the user declines. *)
Definition settings_and_download (us : list string) (dtype : string)
    : M unit :=
  uc <- prompt_use_cookies (ans_use_cookies user) ;;
  self_cookies <- get_cookies_path ;;
  let browser :=
    if negb uc || negb (opt_truthy self_cookies) then
      if ans_want_browser user then Some (browser_value (ans_browser user))
      else None
    else None in
  let template := ans_output_template user in
  let extras := map extra_value (ans_extra_options user) in
  let langs :=
    if str_in "subtitles" extras then ans_subtitle_langs user else "en" in
  print (Text (nl ++ str_mul "=" 50)) ;;
  if ans_confirm user then
    download {| urls := us;
                download_type := dtype;
                output_template := template;
                extra_options := Some extras;
                subtitle_langs := langs;
                use_cookies := uc;
                browser_cookies := browser |}
  else print (Text (nl ++ "❌ Download canceled.")).

(** [run_interactive]. The prompts are answered from [user]; the
    [KeyboardInterrupt] handler is outside the model, which has no
    interrupts. *)
Definition run_interactive : M unit :=
  banner ;;
  let us := split (ans_url user) in
  dtype <- choose_download_type us ;;
  settings_and_download us dtype.

(** The script: build the downloader, then run the dialogue. *)
Definition program : M unit :=
  init ;;
  run_interactive.

End Run.

End App.

(** ** video_downloader.py: the flag-parsing front end *)

Module Cli.

(** The keyword arguments of [download]; [main] fills them from the
    parsed command line, so the record also stands for the [args]
    namespace ([args.output] is [output_template] here). *)
Record request : Type := {
  urls : list string;
  format : option string;
  audio_only : bool;
  output_template : option string;
  subtitles : bool;
  subtitles_lang : string;
  playlist : bool;
  metadata : bool;
  thumbnail : bool;
  sponsorblock : bool;
  cookies : option string;
  browser : option string
}.

(** [download(urls)] with every default of the signature, which are
    also the defaults of the argument parser. *)
Definition default_request (us : list string) : request :=
  {| urls := us;
     format := None;
     audio_only := false;
     output_template := None;
     subtitles := false;
     subtitles_lang := "en";
     playlist := false;
     metadata := false;
     thumbnail := false;
     sponsorblock := false;
     cookies := None;
     browser := None |}.

Definition missing_cookies_warning (c : string) : string :=
  "Warning: Cookies file " ++ c ++ " not found. Proceeding without cookies.".

(** The blocks of [download], each taking the list [cmd] built so far
    and returning it extended. *)

(** [# Cookie handling], without its warning; [found] is
    [Path(cookies).exists()]. *)
Definition add_cookies (found : bool) (r : request) (cmd : list string)
    : list string :=
  if opt_truthy (cookies r) then
    if found then extend cmd ["--cookies"; opt_str (cookies r)]
    else cmd
  else if opt_truthy (browser r) then
    extend cmd ["--cookies-from-browser"; opt_str (browser r)]
  else cmd.

(** [# Format selection] *)
Definition add_format_selection (r : request) (cmd : list string)
    : list string :=
  if opt_truthy (format r) then extend cmd ["-f"; opt_str (format r)]
  else if audio_only r then
    extend cmd ["--extract-audio"; "--audio-format"; "mp3"]
  else cmd.

(** [# Output template] *)
Definition add_output_template (r : request) (cmd : list string)
    : list string :=
  if opt_truthy (output_template r) then
    extend cmd ["-o"; opt_str (output_template r)]
  else cmd.

(** [# Subtitles] *)
Definition add_subtitles (r : request) (cmd : list string) : list string :=
  if subtitles r then
    extend cmd ["--write-subs"; "--sub-langs"; subtitles_lang r]
  else cmd.

(** [# Playlist options] *)
Definition add_playlist (r : request) (cmd : list string) : list string :=
  if negb (playlist r) then append cmd "--no-playlist" else cmd.

(** [# Metadata] and [# SponsorBlock] *)
Definition add_metadata (r : request) (cmd : list string) : list string :=
  let cmd := if metadata r then append cmd "--add-metadata" else cmd in
  let cmd := if thumbnail r then append cmd "--embed-thumbnail" else cmd in
  if sponsorblock r then append cmd "--sponsorblock-remove" else cmd.

(** What [download] does to the list after the cookie block. *)
Definition add_options (r : request) (cmd : list string) : list string :=
  let cmd := add_format_selection r cmd in
  let cmd := add_output_template r cmd in
  let cmd := add_subtitles r cmd in
  let cmd := add_playlist r cmd in
  let cmd := add_metadata r cmd in
  extend cmd (urls r).

(** The token list [cmd] as [download] holds it when it reaches
    [subprocess.run]. *)
Definition download_cmd (w : world) (r : request) : list string :=
  let cmd := ["yt-dlp"] in
  let cmd := add_cookies (path_exists w (opt_str (cookies r))) r cmd in
  add_options r cmd.

(** The blocks of [download], with provenance. *)
Definition auth_part (w : world) (r : request) : list token :=
  if opt_truthy (cookies r) then
    if path_exists w (opt_str (cookies r)) then
      [Fixed "--cookies"; Given (opt_str (cookies r))]
    else []
  else if opt_truthy (browser r) then
    [Fixed "--cookies-from-browser"; Given (opt_str (browser r))]
  else [].

Definition format_part (r : request) : list token :=
  if opt_truthy (format r) then [Fixed "-f"; Given (opt_str (format r))]
  else if audio_only r then
    [Fixed "--extract-audio"; Fixed "--audio-format"; Fixed "mp3"]
  else [].

Definition output_part (r : request) : list token :=
  if opt_truthy (output_template r) then
    [Fixed "-o"; Given (opt_str (output_template r))]
  else [].

Definition subtitles_part (r : request) : list token :=
  if subtitles r then
    [Fixed "--write-subs"; Fixed "--sub-langs"; Given (subtitles_lang r)]
  else [].

Definition playlist_part (r : request) : list token :=
  if negb (playlist r) then [Fixed "--no-playlist"] else [].

Definition flag_if (b : bool) (flag : string) : list token :=
  if b then [Fixed flag] else [].

Definition download_parts (w : world) (r : request) : list token :=
  Fixed "yt-dlp"
  :: auth_part w r ++ format_part r ++ output_part r
     ++ subtitles_part r ++ playlist_part r
     ++ flag_if (metadata r) "--add-metadata"
     ++ flag_if (thumbnail r) "--embed-thumbnail"
     ++ flag_if (sponsorblock r) "--sponsorblock-remove"
     ++ map Given (urls r).

(** The literals the builder puts into the command, and the argument
    strings it copies into it. *)
Definition emitted (w : world) (r : request) : list string :=
  fixed_of (download_parts w r).

Definition passed (w : world) (r : request) : list string :=
  given_of (download_parts w r).

(** The state after the cookie block of [download]: the warning is
    printed when a cookies file was named and is missing. *)
Definition warned (w : world) (r : request) (s : state) : state :=
  if opt_truthy (cookies r) && negb (path_exists w (opt_str (cookies r)))
  then log_line (Text (missing_cookies_warning (opt_str (cookies r)))) s
  else s.

Section Run.

Variable w : world.

Definition check_ytdlp_installed : M unit :=
  try_except
    (subprocess_run w ["yt-dlp"; "--version"])
    is_called_process_or_not_found
    (fun _ =>
       print (Text "Error: yt-dlp not found. Please install it first.") ;;
       print (Text "Installation instructions: https://github.com/yt-dlp/yt-dlp#installation") ;;
       sys_exit 1).

(** [__init__]. *)
Definition init : M unit := check_ytdlp_installed.

(** [download]: the cookie block looks at the file system and may
    print its warning; the other blocks only extend the list. *)
Definition download (r : request) : M unit :=
  let cmd := ["yt-dlp"] in
  cmd <-
    (if opt_truthy (cookies r) then
       found <- exists_path w (opt_str (cookies r)) ;;
       if found then ret (extend cmd ["--cookies"; opt_str (cookies r)])
       else
         print (Text (missing_cookies_warning (opt_str (cookies r)))) ;;
         ret cmd
     else if opt_truthy (browser r) then
       ret (extend cmd ["--cookies-from-browser"; opt_str (browser r)])
     else ret cmd) ;;
  let cmd := add_format_selection r cmd in
  let cmd := add_output_template r cmd in
  let cmd := add_subtitles r cmd in
  let cmd := add_playlist r cmd in
  let cmd := add_metadata r cmd in
  let cmd := extend cmd (urls r) in
  try_except
    (subprocess_run w cmd)
    is_called_process_error
    (fun e =>
       print (TextExn "Error downloading video: " e) ;;
       sys_exit 1).

Definition get_available_formats (url : string) (cookies : option string)
    : M unit :=
  let cmd := ["yt-dlp"; "-F"; url] in
  let cmd :=
    if opt_truthy cookies then extend cmd ["--cookies"; opt_str cookies]
    else cmd in
  try_except
    (subprocess_run w cmd)
    is_called_process_error
    (fun e => print (TextExn "Error getting formats: " e)).

(** [main], from the parsed arguments on. *)
Definition main (args : request) : M unit :=
  if opt_truthy (cookies args) && opt_truthy (browser args) then
    print (Text "Error: Please specify either --cookies or --browser, not both") ;;
    sys_exit 1
  else
    init ;;
    download args.

End Run.

End Cli.

(** ** Concrete runs used as examples *)

Module Scenario.

Definition version_cmd : list string := ["yt-dlp"; "--version"].

(** No cookie file anywhere; every run of the external program
    succeeds. *)
Definition all_fine : world :=
  {| path_exists := fun _ => false;
     run_result := fun _ _ => Exited 0 |}.

(** The version check succeeds; every later run exits with status 2. *)
Definition download_exits_2 : world :=
  {| path_exists := fun _ => false;
     run_result := fun history _ =>
                     match history with
                     | [] => Exited 0
                     | _ => Exited 2
                     end |}.

(** [cookies.txt] exists, nothing else does. *)
Definition with_cookies_txt : world :=
  {| path_exists := fun p => p =? "cookies.txt";
     run_result := fun _ _ => Exited 0 |}.

Definition one_url : list string := ["https://example.com/watch?v=1"].

(** A user who takes the first choice everywhere, selects no extra
    option and confirms. *)
Definition plain_user : App.answers :=
  {| App.ans_url := "https://example.com/watch?v=1";
     App.ans_download_type := App.VideoBest;
     App.ans_list_use_cookies := false;
     App.ans_download_type_again := App.VideoBest;
     App.ans_use_cookies := false;
     App.ans_want_browser := false;
     App.ans_browser := App.Chrome;
     App.ans_output_template := "%(title)s.%(ext)s";
     App.ans_extra_options := [];
     App.ans_subtitle_langs := "en";
     App.ans_confirm := true;
     App.ans_format_choice := "bestvideo+bestaudio" |}.

End Scenario.

(** What [download] makes of the result of the external process: a
    normal return after a zero status, [sys.exit(1)] after any other
    status, and an uncaught [FileNotFoundError] when it could not start. *)
Definition relayed (cmd : list string) (res : proc_result) : outcome unit :=
  match res with
  | Exited rc => if (rc =? 0)%Z then Ret tt else Exit 1
  | NoSuchProgram => Raise (FileNotFoundError cmd)
  end.

Module Requests.

(** The interactive [download] as [run_interactive] calls it when the
    user selects no extra option. *)
Definition nothing_selected : App.request :=
  {| App.urls := Scenario.one_url;
     App.download_type := "video";
     App.output_template := "%(title)s.%(ext)s";
     App.extra_options := Some [];
     App.subtitle_langs := "en";
     App.use_cookies := false;
     App.browser_cookies := None |}.

(** Only the metadata option is selected. *)
Definition metadata_selected : App.request :=
  {| App.urls := Scenario.one_url;
     App.download_type := "video";
     App.output_template := "%(title)s.%(ext)s";
     App.extra_options := Some ["metadata"];
     App.subtitle_langs := "en";
     App.use_cookies := false;
     App.browser_cookies := None |}.

(** [video_downloader.py --playlist -- --no-playlist]: the playlist
    option is given and the only URL is the text of a flag. *)
Definition playlist_with_flag_url : Cli.request :=
  {| Cli.urls := ["--no-playlist"];
     Cli.format := None;
     Cli.audio_only := false;
     Cli.output_template := None;
     Cli.subtitles := false;
     Cli.subtitles_lang := "en";
     Cli.playlist := true;
     Cli.metadata := false;
     Cli.thumbnail := false;
     Cli.sponsorblock := false;
     Cli.cookies := None;
     Cli.browser := None |}.

End Requests.

Module AudioRequests.

(** The audio tokens of the format block. *)
Definition audio_tokens : list string :=
  ["--extract-audio"; "--audio-format"; "mp3"].

(** The interactive [download] for the audio type, where the user typed
    [-f] at the URL prompt. *)
Definition audio_with_flag_url : App.request :=
  {| App.urls := ["-f"];
     App.download_type := "audio";
     App.output_template := "%(title)s.%(ext)s";
     App.extra_options := Some [];
     App.subtitle_langs := "en";
     App.use_cookies := false;
     App.browser_cookies := None |}.

(** The interactive [download] for the audio type and one URL. *)
Definition audio_plain : App.request :=
  {| App.urls := Scenario.one_url;
     App.download_type := "audio";
     App.output_template := "%(title)s.%(ext)s";
     App.extra_options := Some ["thumbnail"];
     App.subtitle_langs := "en";
     App.use_cookies := false;
     App.browser_cookies := None |}.

(** [video_downloader.py -a URL]. *)
Definition cli_audio_plain : Cli.request :=
  {| Cli.urls := Scenario.one_url;
     Cli.format := None;
     Cli.audio_only := true;
     Cli.output_template := None;
     Cli.subtitles := false;
     Cli.subtitles_lang := "en";
     Cli.playlist := false;
     Cli.metadata := false;
     Cli.thumbnail := false;
     Cli.sponsorblock := false;
     Cli.cookies := None;
     Cli.browser := None |}.

End AudioRequests.

Module SubtitleRequests.

(** The same interactive request with another subtitle-languages string. *)
Definition app_with_langs (l : string) (r : App.request) : App.request :=
  {| App.urls := App.urls r;
     App.download_type := App.download_type r;
     App.output_template := App.output_template r;
     App.extra_options := App.extra_options r;
     App.subtitle_langs := l;
     App.use_cookies := App.use_cookies r;
     App.browser_cookies := App.browser_cookies r |}.

(** The same flag-parsing request with another subtitle-languages
    string. *)
Definition cli_with_langs (l : string) (r : Cli.request) : Cli.request :=
  {| Cli.urls := Cli.urls r;
     Cli.format := Cli.format r;
     Cli.audio_only := Cli.audio_only r;
     Cli.output_template := Cli.output_template r;
     Cli.subtitles := Cli.subtitles r;
     Cli.subtitles_lang := l;
     Cli.playlist := Cli.playlist r;
     Cli.metadata := Cli.metadata r;
     Cli.thumbnail := Cli.thumbnail r;
     Cli.sponsorblock := Cli.sponsorblock r;
     Cli.cookies := Cli.cookies r;
     Cli.browser := Cli.browser r |}.

(** [video_downloader.py --subtitles --subtitles-lang en,es URL]. *)
Definition cli_subtitles : Cli.request :=
  {| Cli.urls := Scenario.one_url;
     Cli.format := None;
     Cli.audio_only := false;
     Cli.output_template := None;
     Cli.subtitles := true;
     Cli.subtitles_lang := "en,es";
     Cli.playlist := false;
     Cli.metadata := false;
     Cli.thumbnail := false;
     Cli.sponsorblock := false;
     Cli.cookies := None;
     Cli.browser := None |}.

(** [video_downloader.py -a --subtitles-lang mp3 URL]: no subtitles
    option, and a languages string that reads like a token the builder
    emits for the audio type. *)
Definition cli_langs_mp3 : Cli.request :=
  {| Cli.urls := Scenario.one_url;
     Cli.format := None;
     Cli.audio_only := true;
     Cli.output_template := None;
     Cli.subtitles := false;
     Cli.subtitles_lang := "mp3";
     Cli.playlist := false;
     Cli.metadata := false;
     Cli.thumbnail := false;
     Cli.sponsorblock := false;
     Cli.cookies := None;
     Cli.browser := None |}.

(** [video_downloader.py -- --write-subs]: no subtitles option, and a
    URL that reads [--write-subs]. *)
Definition cli_write_subs_url : Cli.request :=
  {| Cli.urls := ["--write-subs"];
     Cli.format := None;
     Cli.audio_only := false;
     Cli.output_template := None;
     Cli.subtitles := false;
     Cli.subtitles_lang := "en";
     Cli.playlist := false;
     Cli.metadata := false;
     Cli.thumbnail := false;
     Cli.sponsorblock := false;
     Cli.cookies := None;
     Cli.browser := None |}.

(** The interactive [download] with subtitles and metadata selected. *)
Definition app_subtitles : App.request :=
  {| App.urls := Scenario.one_url;
     App.download_type := "video";
     App.output_template := "%(title)s.%(ext)s";
     App.extra_options := Some ["subtitles"; "metadata"];
     App.subtitle_langs := "en,es";
     App.use_cookies := false;
     App.browser_cookies := None |}.

End SubtitleRequests.

Module CookieRequests.

(** The same flag-parsing request with neither a cookies file nor a
    browser. *)
Definition without_cookie_source (r : Cli.request) : Cli.request :=
  {| Cli.urls := Cli.urls r;
     Cli.format := Cli.format r;
     Cli.audio_only := Cli.audio_only r;
     Cli.output_template := Cli.output_template r;
     Cli.subtitles := Cli.subtitles r;
     Cli.subtitles_lang := Cli.subtitles_lang r;
     Cli.playlist := Cli.playlist r;
     Cli.metadata := Cli.metadata r;
     Cli.thumbnail := Cli.thumbnail r;
     Cli.sponsorblock := Cli.sponsorblock r;
     Cli.cookies := None;
     Cli.browser := None |}.

(** The same flag-parsing request with another audio-only switch. *)
Definition with_audio_only (b : bool) (r : Cli.request) : Cli.request :=
  {| Cli.urls := Cli.urls r;
     Cli.format := Cli.format r;
     Cli.audio_only := b;
     Cli.output_template := Cli.output_template r;
     Cli.subtitles := Cli.subtitles r;
     Cli.subtitles_lang := Cli.subtitles_lang r;
     Cli.playlist := Cli.playlist r;
     Cli.metadata := Cli.metadata r;
     Cli.thumbnail := Cli.thumbnail r;
     Cli.sponsorblock := Cli.sponsorblock r;
     Cli.cookies := Cli.cookies r;
     Cli.browser := Cli.browser r |}.

(** The flag-parsing request for one URL with the given format, audio
    switch, cookies file and browser, and every other default. *)
Definition cli_request (us : list string) (f : option string) (a : bool)
    (c b : option string) : Cli.request :=
  {| Cli.urls := us;
     Cli.format := f;
     Cli.audio_only := a;
     Cli.output_template := None;
     Cli.subtitles := false;
     Cli.subtitles_lang := "en";
     Cli.playlist := false;
     Cli.metadata := false;
     Cli.thumbnail := false;
     Cli.sponsorblock := false;
     Cli.cookies := c;
     Cli.browser := b |}.

(** [video_downloader.py --cookies missing.txt URL], no such file. *)
Definition missing_cookies : Cli.request :=
  cli_request Scenario.one_url None false (Some "missing.txt") None.

(** [video_downloader.py --browser=--cookies URL]. *)
Definition browser_named_cookies : Cli.request :=
  cli_request Scenario.one_url None false None (Some "--cookies").

(** [video_downloader.py --cookies cookies.txt --browser firefox URL]. *)
Definition both_sources : Cli.request :=
  cli_request Scenario.one_url None false (Some "cookies.txt")
    (Some "firefox").

(** [video_downloader.py --cookies '' --browser firefox URL]: an empty
    cookies path together with a browser. *)
Definition empty_cookies_and_browser : Cli.request :=
  cli_request Scenario.one_url None false (Some "") (Some "firefox").

(** [video_downloader.py -f best -a URL]. *)
Definition format_and_audio : Cli.request :=
  cli_request Scenario.one_url (Some "best") true None None.

(** [video_downloader.py -f best -a -- --extract-audio]. *)
Definition format_audio_flag_url : Cli.request :=
  cli_request ["--extract-audio"] (Some "best") true None None.

(** [video_downloader.py -f '' -a URL]: an empty format string. *)
Definition empty_format_and_audio : Cli.request :=
  cli_request Scenario.one_url (Some "") true None None.

(** The interactive [download] with the cookies file accepted and a
    browser named as well. *)
Definition app_cookies_and_browser : App.request :=
  {| App.urls := Scenario.one_url;
     App.download_type := "video";
     App.output_template := "%(title)s.%(ext)s";
     App.extra_options := Some [];
     App.subtitle_langs := "en";
     App.use_cookies := true;
     App.browser_cookies := Some "firefox" |}.

End CookieRequests.

(** ** Notions used by the statements *)

(** An action that leaves the [cookies_path] attribute as it found it,
    however it ends. *)
Definition keeps_cookies_path {A} (m : M A) : Prop :=
  forall s, cookies_path (snd (m s)) = cookies_path s.

(** An action that hands no command to [subprocess.run]. *)
Definition runs_nothing {A} (m : M A) : Prop :=
  forall s, calls (snd (m s)) = calls s.

(** The external program ran and left status 0. *)
Definition succeeded (res : proc_result) : bool :=
  match res with
  | Exited rc => (rc =? 0)%Z
  | NoSuchProgram => false
  end.

Module Dialogue.

(** A user who first asks for the list of formats, then takes the video
    type, selects no extra option and confirms. *)
Definition list_first_user : App.answers :=
  {| App.ans_url := "https://example.com/watch?v=1";
     App.ans_download_type := App.ListFirst;
     App.ans_list_use_cookies := false;
     App.ans_download_type_again := App.VideoBest;
     App.ans_use_cookies := false;
     App.ans_want_browser := false;
     App.ans_browser := App.Chrome;
     App.ans_output_template := "%(title)s.%(ext)s";
     App.ans_extra_options := [];
     App.ans_subtitle_langs := "en";
     App.ans_confirm := true;
     App.ans_format_choice := "bestvideo+bestaudio" |}.

End Dialogue.

(** The commands a part of the dialogue may run: none, or one listing
    of formats; none, or one download. *)
Definition listing_or_none (sc : option string) (l : list (list string))
    : Prop :=
  l = [] \/ exists url uc, l = [App.formats_cmd sc url uc].

Definition download_or_none (sc : option string) (fc : string)
    (l : list (list string)) : Prop :=
  l = [] \/ exists r, l = [App.download_cmd sc fc r].

(** ** The URL prompt and its validation *)

Module Prompt.

(** Leading whitespace removed, as [str.lstrip()] does. *)
Fixpoint drop_spaces (l : list ascii) : list ascii :=
  match l with
  | [] => []
  | c :: rest => if is_space c then drop_spaces rest else l
  end.

(** [text.strip()], for ASCII text: whitespace removed at both ends. *)
Definition strip (text : string) : string :=
  string_of_list_ascii
    (rev (drop_spaces (rev (drop_spaces (list_ascii_of_string text))))).

(** The [validate] function of [prompt_url]:
    [lambda text: len(text.strip()) > 0]. *)
Definition validate (text : string) : bool :=
  Nat.ltb 0 (String.length (strip text)).

End Prompt.

(** ** Requests that differ in one argument *)

Module Update.

(** The same interactive request for other URLs. *)
Definition app_with_urls (us : list string) (r : App.request) : App.request :=
  {| App.urls := us;
     App.download_type := App.download_type r;
     App.output_template := App.output_template r;
     App.extra_options := App.extra_options r;
     App.subtitle_langs := App.subtitle_langs r;
     App.use_cookies := App.use_cookies r;
     App.browser_cookies := App.browser_cookies r |}.

(** The same interactive request with other extra options. *)
Definition app_with_extra_options (o : option (list string))
    (r : App.request) : App.request :=
  {| App.urls := App.urls r;
     App.download_type := App.download_type r;
     App.output_template := App.output_template r;
     App.extra_options := o;
     App.subtitle_langs := App.subtitle_langs r;
     App.use_cookies := App.use_cookies r;
     App.browser_cookies := App.browser_cookies r |}.

(** The same flag-parsing request for other URLs. *)
Definition cli_with_urls (us : list string) (r : Cli.request) : Cli.request :=
  {| Cli.urls := us;
     Cli.format := Cli.format r;
     Cli.audio_only := Cli.audio_only r;
     Cli.output_template := Cli.output_template r;
     Cli.subtitles := Cli.subtitles r;
     Cli.subtitles_lang := Cli.subtitles_lang r;
     Cli.playlist := Cli.playlist r;
     Cli.metadata := Cli.metadata r;
     Cli.thumbnail := Cli.thumbnail r;
     Cli.sponsorblock := Cli.sponsorblock r;
     Cli.cookies := Cli.cookies r;
     Cli.browser := Cli.browser r |}.

(** The request that [run_interactive] hands to [download] for the URLs
    [us] and the type [dtype], from the user's answers and the cookies
    file [sc] found at construction. *)
Definition dialogue_request (user : App.answers) (sc : option string)
    (us : list string) (dtype : string) : App.request :=
  let uc := if negb (opt_truthy sc) then false else App.ans_use_cookies user in
  {| App.urls := us;
     App.download_type := dtype;
     App.output_template := App.ans_output_template user;
     App.extra_options :=
       Some (map App.extra_value (App.ans_extra_options user));
     App.subtitle_langs :=
       (if str_in "subtitles"
             (map App.extra_value (App.ans_extra_options user))
        then App.ans_subtitle_langs user else "en");
     App.use_cookies := uc;
     App.browser_cookies :=
       (if negb uc || negb (opt_truthy sc) then
          if App.ans_want_browser user then
            Some (App.browser_value (App.ans_browser user))
          else None
        else None) |}.

(** The six browser names of [prompt_browser_cookies]. *)
Definition browsers : list string :=
  ["chrome"; "firefox"; "edge"; "brave"; "opera"; "safari"].

End Update.

Module Listing.

(** The command of [get_available_formats] in the flag-parsing front
    end. *)
Definition cli_formats_cmd (url : string) (cookies : option string)
    : list string :=
  let cmd := ["yt-dlp"; "-F"; url] in
  if opt_truthy cookies then extend cmd ["--cookies"; opt_str cookies]
  else cmd.

(** What [prompt_use_cookies] returns for the answer [answer] when the
    attribute [cookies_path] is [sc]. *)
Definition use_cookies_answer (sc : option string) (answer : bool) : bool :=
  if negb (opt_truthy sc) then false else answer.

End Listing.

Module Declining.

(** A user who sets everything up and then declines to start. *)
Definition user : App.answers :=
  {| App.ans_url := "https://example.com/watch?v=1";
     App.ans_download_type := App.VideoBest;
     App.ans_list_use_cookies := false;
     App.ans_download_type_again := App.VideoBest;
     App.ans_use_cookies := false;
     App.ans_want_browser := false;
     App.ans_browser := App.Chrome;
     App.ans_output_template := "";
     App.ans_extra_options := [];
     App.ans_subtitle_langs := "en";
     App.ans_confirm := false;
     App.ans_format_choice := "" |}.

(** No [yt-dlp] on the machine. *)
Definition no_ytdlp : world :=
  {| path_exists := fun _ => false;
     run_result := fun _ _ => NoSuchProgram |}.

End Declining.

(** * Properties *)

(** ** Tokens and their provenance *)

Lemma text_given (l : list string) : map text (map Given l) = l.
Proof.
  induction l as [|x l IH]; simpl; [reflexivity | now rewrite IH].
Qed.

Lemma fixed_of_app (a b : list token) :
  fixed_of (a ++ b) = fixed_of a ++ fixed_of b.
Proof. unfold fixed_of. apply flat_map_app. Qed.

Lemma given_of_app (a b : list token) :
  given_of (a ++ b) = given_of a ++ given_of b.
Proof. unfold given_of. apply flat_map_app. Qed.

Lemma fixed_of_given (l : list string) : fixed_of (map Given l) = [].
Proof. induction l as [|x l IH]; simpl; [reflexivity | exact IH]. Qed.

Lemma given_of_given (l : list string) : given_of (map Given l) = l.
Proof.
  induction l as [|x l IH]; simpl; [reflexivity | now rewrite IH].
Qed.

(** A token of the command is a literal of the builder or a value it was
    given: nothing else gets in. *)
Lemma in_text_iff (x : string) (l : list token) :
  In x (map text l) <-> In x (fixed_of l) \/ In x (given_of l).
Proof.
  induction l as [|t l IH]; simpl.
  - tauto.
  - destruct t as [s|s]; simpl; rewrite IH; tauto.
Qed.

Lemma consecutive_in (l cmd : list string) (x : string) :
  consecutive l cmd -> In x l -> In x cmd.
Proof.
  intros (pre & post & ->) Hx.
  apply in_or_app. right. apply in_or_app. now left.
Qed.


(** ** The command as a concatenation of its blocks *)

Ltac split_ifs :=
  repeat match goal with
         | |- context [if ?c then _ else _] => destruct c
         end.

Lemma app_add_authentication sc r cmd :
  App.add_authentication sc r cmd = cmd ++ map text (App.auth_part sc r).
Proof.
  unfold App.add_authentication, App.auth_part, extend.
  split_ifs; simpl; now rewrite ?app_nil_r.
Qed.

Lemma app_add_format_selection fc r cmd :
  App.add_format_selection fc r cmd = cmd ++ map text (App.format_part fc r).
Proof.
  unfold App.add_format_selection, App.format_part, extend.
  split_ifs; simpl; now rewrite ?app_nil_r.
Qed.

Lemma app_add_output_template r cmd :
  App.add_output_template r cmd = cmd ++ map text (App.output_part r).
Proof.
  unfold App.add_output_template, App.output_part, extend.
  split_ifs; simpl; now rewrite ?app_nil_r.
Qed.

Lemma app_add_extra_options r cmd :
  App.add_extra_options r cmd = cmd ++ map text (App.extra_part r).
Proof.
  unfold App.add_extra_options, App.extra_part, App.subtitles_part,
    App.playlist_part, App.flag_if, extend, append.
  destruct (list_truthy (App.extra_options r)); [|now rewrite app_nil_r].
  cbv zeta.
  split_ifs; simpl; rewrite <- ?app_assoc, ?app_nil_r; reflexivity.
Qed.

Lemma app_download_cmd_parts sc fc r :
  App.download_cmd sc fc r = map text (App.download_parts sc fc r).
Proof.
  unfold App.download_cmd, App.download_parts, extend. cbv zeta.
  rewrite app_add_extra_options, app_add_output_template,
    app_add_format_selection, app_add_authentication.
  rewrite map_cons, !map_app, text_given, <- !app_assoc.
  reflexivity.
Qed.

Lemma cli_add_cookies w r cmd :
  Cli.add_cookies (path_exists w (opt_str (Cli.cookies r))) r cmd
  = cmd ++ map text (Cli.auth_part w r).
Proof.
  unfold Cli.add_cookies, Cli.auth_part, extend.
  split_ifs; simpl; now rewrite ?app_nil_r.
Qed.

Lemma cli_add_format_selection r cmd :
  Cli.add_format_selection r cmd = cmd ++ map text (Cli.format_part r).
Proof.
  unfold Cli.add_format_selection, Cli.format_part, extend.
  split_ifs; simpl; now rewrite ?app_nil_r.
Qed.

Lemma cli_add_output_template r cmd :
  Cli.add_output_template r cmd = cmd ++ map text (Cli.output_part r).
Proof.
  unfold Cli.add_output_template, Cli.output_part, extend.
  split_ifs; simpl; now rewrite ?app_nil_r.
Qed.

Lemma cli_add_subtitles r cmd :
  Cli.add_subtitles r cmd = cmd ++ map text (Cli.subtitles_part r).
Proof.
  unfold Cli.add_subtitles, Cli.subtitles_part, extend.
  split_ifs; simpl; now rewrite ?app_nil_r.
Qed.

Lemma cli_add_playlist r cmd :
  Cli.add_playlist r cmd = cmd ++ map text (Cli.playlist_part r).
Proof.
  unfold Cli.add_playlist, Cli.playlist_part, append.
  split_ifs; simpl; now rewrite ?app_nil_r.
Qed.

Lemma cli_add_metadata r cmd :
  Cli.add_metadata r cmd
  = cmd ++ map text (Cli.flag_if (Cli.metadata r) "--add-metadata"
                     ++ Cli.flag_if (Cli.thumbnail r) "--embed-thumbnail"
                     ++ Cli.flag_if (Cli.sponsorblock r)
                          "--sponsorblock-remove").
Proof.
  unfold Cli.add_metadata, Cli.flag_if, append. cbv zeta.
  destruct (Cli.metadata r), (Cli.thumbnail r), (Cli.sponsorblock r);
    simpl; rewrite <- ?app_assoc, ?app_nil_r; reflexivity.
Qed.

Lemma cli_add_options r cmd :
  Cli.add_options r cmd
  = cmd ++ map text (Cli.format_part r ++ Cli.output_part r
                     ++ Cli.subtitles_part r ++ Cli.playlist_part r
                     ++ Cli.flag_if (Cli.metadata r) "--add-metadata"
                     ++ Cli.flag_if (Cli.thumbnail r) "--embed-thumbnail"
                     ++ Cli.flag_if (Cli.sponsorblock r) "--sponsorblock-remove"
                     ++ map Given (Cli.urls r)).
Proof.
  unfold Cli.add_options, extend. cbv zeta.
  rewrite cli_add_metadata, cli_add_playlist, cli_add_subtitles,
    cli_add_output_template, cli_add_format_selection.
  rewrite !map_app, text_given, <- !app_assoc. reflexivity.
Qed.

Lemma cli_download_cmd_parts w r :
  Cli.download_cmd w r = map text (Cli.download_parts w r).
Proof.
  unfold Cli.download_cmd, Cli.download_parts. cbv zeta.
  rewrite cli_add_options, cli_add_cookies.
  rewrite <- app_assoc, <- map_app. reflexivity.
Qed.

(** ** What a call of [download] does *)

(** The state and outcome of [subprocess.run(cmd, check=True)] inside the
    [try] of [download], with the handler's [sys.exit(1)]. *)
Lemma app_download_run w user r s :
  let cmd := App.download_cmd (cookies_path s) (App.ans_format_choice user) r in
  App.download w user r s =
  match run_result w (calls s) cmd with
  | Exited rc =>
      if (rc =? 0)%Z then
        (Ret tt,
         log_line (Text (nl ++ "✅ Download completed successfully!"))
           (log_call cmd s))
      else
        (Exit 1,
         log_line (TextExn (nl ++ "❌ Error downloading video: ")
                     (CalledProcessError cmd rc))
           (log_call cmd s))
  | NoSuchProgram => (Raise (FileNotFoundError cmd), log_call cmd s)
  end.
Proof.
  intros cmd.
  unfold App.download, bind, get_cookies_path, try_except, subprocess_run,
    print, sys_exit.
  cbv zeta. fold (App.download_cmd (cookies_path s)
                    (App.ans_format_choice user) r). fold cmd.
  destruct (run_result w (calls s) cmd) as [rc|]; [|reflexivity].
  destruct (rc =? 0)%Z; reflexivity.
Qed.

(** The same for the flag-parsing front end. *)
Lemma cli_download_run w r s :
  let cmd := Cli.download_cmd w r in
  let s1 := Cli.warned w r s in
  Cli.download w r s =
  match run_result w (calls s) cmd with
  | Exited rc =>
      if (rc =? 0)%Z then (Ret tt, log_call cmd s1)
      else
        (Exit 1,
         log_line (TextExn "Error downloading video: "
                     (CalledProcessError cmd rc))
           (log_call cmd s1))
  | NoSuchProgram => (Raise (FileNotFoundError cmd), log_call cmd s1)
  end.
Proof.
  intros cmd s1. subst cmd s1.
  unfold Cli.download, Cli.download_cmd, Cli.add_options, Cli.add_cookies,
    Cli.warned, bind, exists_path, ret, print, try_except, subprocess_run,
    sys_exit.
  cbv zeta.
  destruct (opt_truthy (Cli.cookies r));
    [destruct (path_exists w (opt_str (Cli.cookies r)))
    |destruct (opt_truthy (Cli.browser r))];
    cbn [andb negb calls log_line];
    match goal with
    | |- context [run_result w (calls s) ?c] =>
        destruct (run_result w (calls s) c) as [rc|];
          [destruct (rc =? 0)%Z|]; reflexivity
    end.
Qed.

(** ** Cookie-file discovery *)

Lemma first_existing_some (ex : string -> bool) (l : list string) (f : string) :
  App.first_existing ex l = Some f <->
  exists before after,
    l = before ++ f :: after
    /\ ex f = true
    /\ forall g, In g before -> ex g = false.
Proof.
  induction l as [|x l IH]; simpl.
  - split; [discriminate|].
    intros (before & after & E & _). now destruct before.
  - destruct (ex x) eqn:Ex.
    + split.
      * intros [= <-]. exists [], l. repeat split; [assumption | intros g []].
      * intros ([|b before] & after & E & Hf & Hb).
        -- now injection E as -> _.
        -- injection E as -> _.
           rewrite (Hb b (or_introl eq_refl)) in Ex. discriminate.
    + rewrite IH. split.
      * intros (before & after & -> & Hf & Hb).
        exists (x :: before), after. repeat split; [assumption|].
        intros g [<-|Hg]; [assumption | now apply Hb].
      * intros ([|b before] & after & E & Hf & Hb).
        -- injection E as -> _. rewrite Hf in Ex. discriminate.
        -- injection E as -> ->. exists before, after.
           repeat split; [assumption|]. intros g Hg. apply Hb. now right.
Qed.

Lemma first_existing_none (ex : string -> bool) (l : list string) :
  App.first_existing ex l = None <-> forall g, In g l -> ex g = false.
Proof.
  induction l as [|x l IH]; simpl.
  - split; [intros _ g [] | reflexivity].
  - destruct (ex x) eqn:Ex.
    + split; [discriminate|]. intros H.
      rewrite (H x (or_introl eq_refl)) in Ex. discriminate.
    + rewrite IH. split.
      * intros H g [<-|Hg]; [assumption | now apply H].
      * intros H g Hg. apply H. now right.
Qed.

(** C5: [find_cookies_file] tries [www.youtube.com_cookies.txt], then
    [youtube.com_cookies.txt], then [cookies.txt], and returns the first
    of them that exists: a name is returned exactly when it is a
    candidate that exists and no candidate before it in that order does;
    [None] is returned exactly when none of the three exists. *)
Theorem find_cookies_file_first_existing (w : world) :
  App.cookie_files
  = ["www.youtube.com_cookies.txt"; "youtube.com_cookies.txt"; "cookies.txt"]
  /\ App.find_cookies_file w
     = (if path_exists w "www.youtube.com_cookies.txt" then
          Some "www.youtube.com_cookies.txt"
        else if path_exists w "youtube.com_cookies.txt" then
          Some "youtube.com_cookies.txt"
        else if path_exists w "cookies.txt" then Some "cookies.txt"
        else None)
  /\ (forall f,
        App.find_cookies_file w = Some f <->
        exists before after,
          App.cookie_files = before ++ f :: after
          /\ path_exists w f = true
          /\ forall g, In g before -> path_exists w g = false)
  /\ (App.find_cookies_file w = None <->
      forall g, In g App.cookie_files -> path_exists w g = false).
Proof.
  split; [reflexivity|]. split; [reflexivity|]. split.
  - intros f. apply first_existing_some.
  - apply first_existing_none.
Qed.

(** ** Exit status *)

Lemma app_download_outcome w user r s :
  fst (App.download w user r s)
  = relayed (App.download_cmd (cookies_path s) (App.ans_format_choice user) r)
      (run_result w (calls s)
         (App.download_cmd (cookies_path s) (App.ans_format_choice user) r)).
Proof.
  rewrite app_download_run. cbv zeta. unfold relayed.
  destruct (run_result w (calls s) _) as [rc|]; [|reflexivity].
  now destruct (rc =? 0)%Z.
Qed.

Lemma cli_download_outcome w r s :
  fst (Cli.download w r s)
  = relayed (Cli.download_cmd w r)
      (run_result w (calls s) (Cli.download_cmd w r)).
Proof.
  rewrite cli_download_run. cbv zeta. unfold relayed.
  destruct (run_result w (calls s) _) as [rc|]; [|reflexivity].
  now destruct (rc =? 0)%Z.
Qed.

(** C1, as the code has it: when the external downloader exits with a
    nonzero status, [download] ends the program with exit status 1,
    whatever that status was; when it exits with status 0, [download]
    returns normally and the program's exit status is not a failure.
    This holds for both entry points. *)
Theorem download_failure_exits_with_status_1 :
  forall (w : world) (s : state) (rc : Z),
    (forall user r,
        run_result w (calls s)
          (App.download_cmd (cookies_path s) (App.ans_format_choice user) r)
        = Exited rc ->
        fst (App.download w user r s)
        = (if (rc =? 0)%Z then Ret tt else Exit 1)
        /\ exit_status (fst (App.download w user r s))
           = (if (rc =? 0)%Z then 0 else 1)%Z)
    /\ (forall r,
           run_result w (calls s) (Cli.download_cmd w r) = Exited rc ->
           fst (Cli.download w r s)
           = (if (rc =? 0)%Z then Ret tt else Exit 1)
           /\ exit_status (fst (Cli.download w r s))
              = (if (rc =? 0)%Z then 0 else 1)%Z).
Proof.
  intros w s rc. split.
  - intros user r H. rewrite app_download_outcome, H. simpl.
    now destruct (rc =? 0)%Z.
  - intros r H. rewrite cli_download_outcome, H. simpl.
    now destruct (rc =? 0)%Z.
Qed.

(** C1, a run on which the claim fails: the version check succeeds, the
    download process exits with status 2, and the program exits with
    status 1, not 2. *)
Lemma download_status_2_is_not_relayed :
  let w := Scenario.download_exits_2 in
  let r := Cli.default_request Scenario.one_url in
  run_result w [Scenario.version_cmd] (Cli.download_cmd w r) = Exited 2
  /\ calls (snd (Cli.main w r init_state))
     = [Scenario.version_cmd; Cli.download_cmd w r]
  /\ exit_status (fst (Cli.main w r init_state)) = 1%Z
  /\ exit_status (fst (Cli.main w r init_state)) <> 2%Z.
Proof.
  cbv zeta. repeat split; try reflexivity.
  vm_compute. discriminate.
Qed.

(** C1, the theorem at a concrete run: both front ends exit with status 1
    when the download process exits with status 2. *)
Lemma download_failure_exits_with_status_1_witness :
  let w := Scenario.download_exits_2 in
  let s := log_call Scenario.version_cmd init_state in
  exit_status
    (fst (App.download w Scenario.plain_user
            (App.default_request Scenario.one_url) s)) = 1%Z
  /\ exit_status
       (fst (Cli.download w (Cli.default_request Scenario.one_url) s)) = 1%Z.
Proof.
  cbv zeta. split.
  - exact (proj2 (proj1 (download_failure_exits_with_status_1
                           Scenario.download_exits_2
                           (log_call Scenario.version_cmd init_state) 2)
                    Scenario.plain_user
                    (App.default_request Scenario.one_url) eq_refl)).
  - exact (proj2 (proj2 (download_failure_exits_with_status_1
                           Scenario.download_exits_2
                           (log_call Scenario.version_cmd init_state) 2)
                    (Cli.default_request Scenario.one_url) eq_refl)).
Defined.

(** ** Which tokens a command holds *)

Lemma app_cmd_in t sc fc r :
  In t (App.download_cmd sc fc r)
  <-> In t (App.emitted sc fc r) \/ In t (App.passed sc fc r).
Proof. rewrite app_download_cmd_parts. apply in_text_iff. Qed.

Lemma cli_cmd_in t w r :
  In t (Cli.download_cmd w r)
  <-> In t (Cli.emitted w r) \/ In t (Cli.passed w r).
Proof. rewrite cli_download_cmd_parts. apply in_text_iff. Qed.

Lemma app_emitted_in t sc fc r :
  In t (App.emitted sc fc r)
  <-> t = "yt-dlp"
      \/ In t (fixed_of (App.auth_part sc r))
      \/ In t (fixed_of (App.format_part fc r))
      \/ In t (fixed_of (App.output_part r))
      \/ In t (fixed_of (App.extra_part r)).
Proof.
  unfold App.emitted, App.download_parts.
  change (fixed_of (Fixed "yt-dlp" :: ?l)) with ("yt-dlp" :: fixed_of l).
  rewrite !fixed_of_app, fixed_of_given. simpl In.
  rewrite !in_app_iff. simpl In. intuition auto.
Qed.

Lemma cli_emitted_in t w r :
  In t (Cli.emitted w r)
  <-> t = "yt-dlp"
      \/ In t (fixed_of (Cli.auth_part w r))
      \/ In t (fixed_of (Cli.format_part r))
      \/ In t (fixed_of (Cli.output_part r))
      \/ In t (fixed_of (Cli.subtitles_part r))
      \/ In t (fixed_of (Cli.playlist_part r))
      \/ In t (fixed_of (Cli.flag_if (Cli.metadata r) "--add-metadata"))
      \/ In t (fixed_of (Cli.flag_if (Cli.thumbnail r) "--embed-thumbnail"))
      \/ In t (fixed_of (Cli.flag_if (Cli.sponsorblock r)
                           "--sponsorblock-remove")).
Proof.
  unfold Cli.emitted, Cli.download_parts.
  change (fixed_of (Fixed "yt-dlp" :: ?l)) with ("yt-dlp" :: fixed_of l).
  rewrite !fixed_of_app, fixed_of_given. simpl In.
  rewrite !in_app_iff. simpl In. intuition auto.
Qed.

(** Closes a goal whose hypothesis [H] puts a literal into the fixed
    tokens of a block that never holds it. *)
Ltac absurd_block H :=
  exfalso; revert H;
  unfold App.auth_part, App.format_part, App.output_part,
    App.subtitles_part, App.playlist_part, App.flag_if,
    Cli.auth_part, Cli.format_part, Cli.output_part, Cli.subtitles_part,
    Cli.playlist_part, Cli.flag_if, App.best_video;
  split_ifs; simpl; intuition discriminate.

Lemma app_extra_fixed_in t r :
  In t (fixed_of (App.extra_part r))
  <-> list_truthy (App.extra_options r) = true
      /\ (In t (fixed_of (App.subtitles_part r))
          \/ In t (fixed_of (App.playlist_part r))
          \/ In t (fixed_of (App.flag_if "metadata" "--add-metadata" r))
          \/ In t (fixed_of (App.flag_if "thumbnail" "--embed-thumbnail" r))
          \/ In t (fixed_of (App.flag_if "sponsorblock"
                               "--sponsorblock-remove" r))).
Proof.
  unfold App.extra_part.
  destruct (list_truthy (App.extra_options r)).
  - rewrite !fixed_of_app, !in_app_iff. intuition auto.
  - simpl. intuition discriminate.
Qed.

(** ** The playlist flag *)

Lemma cli_no_playlist_emitted w r :
  In "--no-playlist" (Cli.emitted w r) <-> Cli.playlist r = false.
Proof.
  rewrite cli_emitted_in. split.
  - intros [H|[H|[H|[H|[H|[H|[H|[H|H]]]]]]]];
      try discriminate H; try (absurd_block H; fail).
    revert H. unfold Cli.playlist_part.
    destruct (Cli.playlist r); simpl; intuition.
  - intros Hp. do 5 right. left.
    unfold Cli.playlist_part. rewrite Hp. simpl. now left.
Qed.

Lemma app_no_playlist_emitted sc fc r :
  In "--no-playlist" (App.emitted sc fc r)
  <-> list_truthy (App.extra_options r) = true
      /\ str_in "playlist" (opt_list (App.extra_options r)) = false.
Proof.
  rewrite app_emitted_in, app_extra_fixed_in. split.
  - intros [H|[H|[H|[H|[Ht [H|[H|[H|[H|H]]]]]]]]];
      try discriminate H; try (absurd_block H; fail).
    split; [assumption|].
    revert H. unfold App.playlist_part.
    destruct (str_in "playlist" _); simpl; intuition.
  - intros [Ht Hp]. do 4 right. split; [assumption|].
    right. left. unfold App.playlist_part. rewrite Hp. simpl. now left.
Qed.

Lemma str_in_iff (x : string) (l : list string) :
  str_in x l = true <-> In x l.
Proof.
  unfold str_in. rewrite existsb_exists. split.
  - intros (y & Hy & E). apply String.eqb_eq in E. now subst.
  - intros H. exists x. split; [assumption | apply String.eqb_refl].
Qed.

Lemma str_in_false_iff (x : string) (l : list string) :
  str_in x l = false <-> ~ In x l.
Proof.
  rewrite <- str_in_iff. destruct (str_in x l); intuition congruence.
Qed.

(** C2, as the code has it: in the flag-parsing entry point, and in the
    interactive entry point whenever at least one extra option is
    selected, the builder appends [--no-playlist] exactly when the
    playlist option is not selected; the command then holds the token
    exactly when playlist is not selected or a value passed through
    from the arguments is itself that text.  Nothing is said here about
    the interactive entry point with an empty selection. *)
Theorem no_playlist_flag_iff_playlist_not_selected :
  (forall w r,
      (In "--no-playlist" (Cli.emitted w r) <-> Cli.playlist r = false)
      /\ (In "--no-playlist" (Cli.download_cmd w r)
          <-> Cli.playlist r = false \/ In "--no-playlist" (Cli.passed w r)))
  /\ (forall sc fc r,
         list_truthy (App.extra_options r) = true ->
         (In "--no-playlist" (App.emitted sc fc r)
          <-> ~ In "playlist" (opt_list (App.extra_options r)))
         /\ (In "--no-playlist" (App.download_cmd sc fc r)
             <-> ~ In "playlist" (opt_list (App.extra_options r))
                 \/ In "--no-playlist" (App.passed sc fc r))).
Proof.
  split.
  - intros w r. split.
    + apply cli_no_playlist_emitted.
    + rewrite cli_cmd_in, cli_no_playlist_emitted. reflexivity.
  - intros sc fc r Ht.
    assert (E : In "--no-playlist" (App.emitted sc fc r)
                <-> ~ In "playlist" (opt_list (App.extra_options r))).
    { rewrite app_no_playlist_emitted, str_in_false_iff. tauto. }
    split; [exact E|].
    rewrite app_cmd_in, E. reflexivity.
Qed.

(** C2, the theorem at a concrete call: with only the metadata option
    selected the interactive command holds [--no-playlist]. *)
Lemma no_playlist_flag_witness :
  In "--no-playlist"
    (App.download_cmd None "bestvideo+bestaudio" Requests.metadata_selected).
Proof.
  apply (proj2 (proj2 no_playlist_flag_iff_playlist_not_selected
                  None "bestvideo+bestaudio" Requests.metadata_selected
                  eq_refl)).
  left. simpl. intuition discriminate.
Defined.

(** C2, two calls on which the claim fails.  In the interactive entry
    point with nothing selected, playlist is not selected and yet the
    command run has no [--no-playlist]; in the flag-parsing entry point
    with the playlist option given, a URL that reads [--no-playlist]
    puts the token into the command. *)
Lemma no_playlist_flag_counterexample :
  (~ In "playlist" (opt_list (App.extra_options Requests.nothing_selected))
   /\ App.download_cmd None "bestvideo+bestaudio" Requests.nothing_selected
      = ["yt-dlp"; "-f"; App.best_video; "-o"; "%(title)s.%(ext)s";
         "https://example.com/watch?v=1"]
   /\ calls (snd (App.program Scenario.all_fine Scenario.plain_user init_state))
      = [Scenario.version_cmd;
         ["yt-dlp"; "-f"; App.best_video; "-o"; "%(title)s.%(ext)s";
          "https://example.com/watch?v=1"]]
   /\ ~ In "--no-playlist"
        (App.download_cmd None "bestvideo+bestaudio"
           Requests.nothing_selected))
  /\ (Cli.playlist Requests.playlist_with_flag_url = true
      /\ In "--no-playlist"
           (Cli.download_cmd Scenario.all_fine
              Requests.playlist_with_flag_url)).
Proof.
  split; [split; [|split; [|split]] | split].
  - simpl. tauto.
  - reflexivity.
  - vm_compute. reflexivity.
  - vm_compute. intuition discriminate.
  - reflexivity.
  - vm_compute. tauto.
Qed.

(** ** Format selection *)

Lemma app_format_part_audio fc r :
  App.download_type r = "audio" ->
  App.format_part fc r
  = [Fixed "--extract-audio"; Fixed "--audio-format"; Fixed "mp3"].
Proof. unfold App.format_part. now intros ->. Qed.

Lemma cli_format_part_audio r :
  Cli.audio_only r = true ->
  opt_truthy (Cli.format r) = false ->
  Cli.format_part r
  = [Fixed "--extract-audio"; Fixed "--audio-format"; Fixed "mp3"].
Proof. unfold Cli.format_part. now intros -> ->. Qed.

Lemma app_cmd_around_format sc fc r :
  App.download_cmd sc fc r
  = ("yt-dlp" :: map text (App.auth_part sc r))
    ++ map text (App.format_part fc r)
    ++ map text (App.output_part r ++ App.extra_part r) ++ App.urls r.
Proof.
  rewrite app_download_cmd_parts. unfold App.download_parts.
  rewrite map_cons, !map_app, text_given. simpl.
  now rewrite <- !app_assoc.
Qed.

Lemma cli_cmd_around_format w r :
  Cli.download_cmd w r
  = ("yt-dlp" :: map text (Cli.auth_part w r))
    ++ map text (Cli.format_part r)
    ++ map text
         (Cli.output_part r ++ Cli.subtitles_part r ++ Cli.playlist_part r
          ++ Cli.flag_if (Cli.metadata r) "--add-metadata"
          ++ Cli.flag_if (Cli.thumbnail r) "--embed-thumbnail"
          ++ Cli.flag_if (Cli.sponsorblock r) "--sponsorblock-remove")
    ++ Cli.urls r.
Proof.
  rewrite cli_download_cmd_parts. unfold Cli.download_parts.
  rewrite map_cons, !map_app, text_given. simpl.
  now rewrite <- !app_assoc.
Qed.

Lemma app_audio_emits_no_f sc fc r :
  App.download_type r = "audio" -> ~ In "-f" (App.emitted sc fc r).
Proof.
  intros Ha. rewrite app_emitted_in, app_extra_fixed_in.
  rewrite (app_format_part_audio fc r Ha).
  intros [H|[H|[H|[H|[_ [H|[H|[H|[H|H]]]]]]]]];
    try discriminate H; try (absurd_block H; fail).
Qed.

Lemma cli_audio_emits_no_f w r :
  Cli.audio_only r = true ->
  opt_truthy (Cli.format r) = false ->
  ~ In "-f" (Cli.emitted w r).
Proof.
  intros Ha Hf. rewrite cli_emitted_in.
  rewrite (cli_format_part_audio r Ha Hf).
  intros [H|[H|[H|[H|[H|[H|[H|[H|H]]]]]]]];
    try discriminate H; try (absurd_block H; fail).
Qed.

(** C3, as the code has it: with the audio type selected (and, in the
    flag-parsing entry point, no format given) the format block of the
    command is exactly [--extract-audio --audio-format mp3], placed
    after the authentication block, and the builder emits no [-f]; the
    command holds [-f] only where a value passed through from the
    arguments is itself that text. *)
Theorem audio_only_format_tokens :
  (forall sc fc r,
      App.download_type r = "audio" ->
      App.format_part fc r
      = [Fixed "--extract-audio"; Fixed "--audio-format"; Fixed "mp3"]
      /\ App.download_cmd sc fc r
         = ("yt-dlp" :: map text (App.auth_part sc r))
           ++ AudioRequests.audio_tokens
           ++ map text (App.output_part r ++ App.extra_part r) ++ App.urls r
      /\ consecutive AudioRequests.audio_tokens (App.download_cmd sc fc r)
      /\ ~ In "-f" (App.emitted sc fc r)
      /\ (In "-f" (App.download_cmd sc fc r)
          <-> In "-f" (App.passed sc fc r)))
  /\ (forall w r,
         Cli.audio_only r = true ->
         opt_truthy (Cli.format r) = false ->
         Cli.format_part r
         = [Fixed "--extract-audio"; Fixed "--audio-format"; Fixed "mp3"]
         /\ consecutive AudioRequests.audio_tokens (Cli.download_cmd w r)
         /\ ~ In "-f" (Cli.emitted w r)
         /\ (In "-f" (Cli.download_cmd w r) <-> In "-f" (Cli.passed w r))).
Proof.
  split.
  - intros sc fc r Ha.
    pose proof (app_format_part_audio fc r Ha) as Hf.
    pose proof (app_audio_emits_no_f sc fc r Ha) as Hn.
    pose proof (app_cmd_around_format sc fc r) as Hc.
    rewrite Hf in Hc. simpl map in Hc at 2.
    repeat split; try assumption.
    + rewrite Hc. eexists. eexists. reflexivity.
    + rewrite app_cmd_in. tauto.
    + rewrite app_cmd_in. tauto.
  - intros w r Ha Hnf.
    pose proof (cli_format_part_audio r Ha Hnf) as Hf.
    pose proof (cli_audio_emits_no_f w r Ha Hnf) as Hn.
    pose proof (cli_cmd_around_format w r) as Hc.
    rewrite Hf in Hc. simpl map in Hc at 2.
    repeat split; try assumption.
    + rewrite Hc. eexists. eexists. reflexivity.
    + rewrite cli_cmd_in. tauto.
    + rewrite cli_cmd_in. tauto.
Qed.

(** C3, the theorem at concrete calls of both entry points: the audio
    tokens are in the command and [-f] is not. *)
Lemma audio_only_format_tokens_witness :
  (consecutive AudioRequests.audio_tokens
     (App.download_cmd None "" AudioRequests.audio_plain)
   /\ ~ In "-f" (App.download_cmd None "" AudioRequests.audio_plain))
  /\ (consecutive AudioRequests.audio_tokens
        (Cli.download_cmd Scenario.all_fine AudioRequests.cli_audio_plain)
      /\ ~ In "-f"
           (Cli.download_cmd Scenario.all_fine AudioRequests.cli_audio_plain)).
Proof.
  split.
  - destruct (proj1 audio_only_format_tokens None ""
                AudioRequests.audio_plain eq_refl)
      as (_ & _ & Hc & _ & Hi).
    split; [exact Hc|].
    intros H. apply Hi in H. vm_compute in H. intuition discriminate.
  - destruct (proj2 audio_only_format_tokens Scenario.all_fine
                AudioRequests.cli_audio_plain eq_refl eq_refl)
      as (_ & Hc & _ & Hi).
    split; [exact Hc|].
    intros H. apply Hi in H. vm_compute in H. intuition discriminate.
Defined.

(** C3, a call on which the claim fails: the audio type is selected and
    the user's URL reads [-f], so the command holds [-f]. *)
Lemma audio_only_with_f_counterexample :
  App.download_type AudioRequests.audio_with_flag_url = "audio"
  /\ App.download_cmd None "" AudioRequests.audio_with_flag_url
     = ["yt-dlp"; "--extract-audio"; "--audio-format"; "mp3";
        "-o"; "%(title)s.%(ext)s"; "-f"]
  /\ In "-f" (App.download_cmd None "" AudioRequests.audio_with_flag_url).
Proof.
  repeat split. vm_compute. tauto.
Qed.

(** ** Subtitles *)

Lemma in_opt_list_truthy (x : string) (o : option (list string)) :
  In x (opt_list o) -> list_truthy o = true.
Proof. now destruct o as [[|y l]|]. Qed.

Lemma app_subtitles_consecutive sc fc r :
  In "subtitles" (opt_list (App.extra_options r)) ->
  consecutive ["--write-subs"; "--sub-langs"; App.subtitle_langs r]
    (App.download_cmd sc fc r).
Proof.
  intros Hs.
  rewrite app_download_cmd_parts. unfold App.download_parts, App.extra_part.
  rewrite (in_opt_list_truthy _ _ Hs).
  unfold App.subtitles_part. rewrite (proj2 (str_in_iff _ _) Hs).
  exists ("yt-dlp" :: map text (App.auth_part sc r ++ App.format_part fc r
                                ++ App.output_part r)).
  eexists.
  rewrite map_cons, !map_app. cbn [app]. rewrite <- !app_assoc.
  cbn [map text app]. reflexivity.
Qed.

Lemma cli_subtitles_consecutive w r :
  Cli.subtitles r = true ->
  consecutive ["--write-subs"; "--sub-langs"; Cli.subtitles_lang r]
    (Cli.download_cmd w r).
Proof.
  intros Hs.
  rewrite cli_download_cmd_parts. unfold Cli.download_parts.
  unfold Cli.subtitles_part. rewrite Hs.
  exists ("yt-dlp" :: map text (Cli.auth_part w r ++ Cli.format_part r
                                ++ Cli.output_part r)).
  eexists.
  rewrite map_cons, !map_app. cbn [app]. rewrite <- !app_assoc.
  cbn [map text app]. reflexivity.
Qed.

Lemma app_no_subtitles_emitted sc fc r t :
  ~ In "subtitles" (opt_list (App.extra_options r)) ->
  t = "--write-subs" \/ t = "--sub-langs" ->
  ~ In t (App.emitted sc fc r).
Proof.
  intros Hs Ht. apply str_in_false_iff in Hs.
  rewrite app_emitted_in, app_extra_fixed_in.
  unfold App.subtitles_part at 1. rewrite Hs.
  destruct Ht as [-> | ->];
    intros [H|[H|[H|[H|[_ [H|[H|[H|[H|H]]]]]]]]];
    try discriminate H; try (absurd_block H; fail); try contradiction.
Qed.

Lemma cli_no_subtitles_emitted w r t :
  Cli.subtitles r = false ->
  t = "--write-subs" \/ t = "--sub-langs" ->
  ~ In t (Cli.emitted w r).
Proof.
  intros Hs Ht.
  rewrite cli_emitted_in.
  unfold Cli.subtitles_part at 1. rewrite Hs.
  destruct Ht as [-> | ->];
    intros [H|[H|[H|[H|[H|[H|[H|[H|H]]]]]]]];
    try discriminate H; try (absurd_block H; fail); try contradiction.
Qed.

Lemma app_langs_unused sc fc r l :
  ~ In "subtitles" (opt_list (App.extra_options r)) ->
  App.download_cmd sc fc (SubtitleRequests.app_with_langs l r)
  = App.download_cmd sc fc r.
Proof.
  intros Hs. apply str_in_false_iff in Hs.
  unfold App.download_cmd, App.add_extra_options, App.add_output_template,
    App.add_format_selection, App.add_authentication,
    SubtitleRequests.app_with_langs.
  cbn [App.urls App.download_type App.output_template App.extra_options
       App.subtitle_langs App.use_cookies App.browser_cookies].
  rewrite Hs. reflexivity.
Qed.

Lemma cli_langs_unused w r l :
  Cli.subtitles r = false ->
  Cli.download_cmd w (SubtitleRequests.cli_with_langs l r)
  = Cli.download_cmd w r.
Proof.
  intros Hs.
  unfold Cli.download_cmd, Cli.add_options, Cli.add_metadata,
    Cli.add_playlist, Cli.add_subtitles, Cli.add_output_template,
    Cli.add_format_selection, Cli.add_cookies,
    SubtitleRequests.cli_with_langs.
  cbn [Cli.urls Cli.format Cli.audio_only Cli.output_template Cli.subtitles
       Cli.subtitles_lang Cli.playlist Cli.metadata Cli.thumbnail
       Cli.sponsorblock Cli.cookies Cli.browser].
  rewrite Hs. reflexivity.
Qed.

(** C4, as the code has it: with the subtitles option selected and
    languages string L the command holds the consecutive tokens
    [--write-subs --sub-langs L].  Without it the builder emits neither
    [--write-subs] nor [--sub-langs] (they are in the command only where
    a value passed through from the arguments is itself that text), and
    L has no effect on the command. *)
Theorem subtitle_tokens :
  (forall sc fc r,
      (In "subtitles" (opt_list (App.extra_options r)) ->
       consecutive ["--write-subs"; "--sub-langs"; App.subtitle_langs r]
         (App.download_cmd sc fc r))
      /\ (~ In "subtitles" (opt_list (App.extra_options r)) ->
          (forall t, t = "--write-subs" \/ t = "--sub-langs" ->
                     ~ In t (App.emitted sc fc r)
                     /\ (In t (App.download_cmd sc fc r)
                         <-> In t (App.passed sc fc r)))
          /\ forall l,
               App.download_cmd sc fc (SubtitleRequests.app_with_langs l r)
               = App.download_cmd sc fc r))
  /\ (forall w r,
         (Cli.subtitles r = true ->
          consecutive ["--write-subs"; "--sub-langs"; Cli.subtitles_lang r]
            (Cli.download_cmd w r))
         /\ (Cli.subtitles r = false ->
             (forall t, t = "--write-subs" \/ t = "--sub-langs" ->
                        ~ In t (Cli.emitted w r)
                        /\ (In t (Cli.download_cmd w r)
                            <-> In t (Cli.passed w r)))
             /\ forall l,
                  Cli.download_cmd w (SubtitleRequests.cli_with_langs l r)
                  = Cli.download_cmd w r)).
Proof.
  split.
  - intros sc fc r. split; [apply app_subtitles_consecutive|].
    intros Hs. split.
    + intros t Ht.
      pose proof (app_no_subtitles_emitted sc fc r t Hs Ht) as Hn.
      split; [exact Hn|]. rewrite app_cmd_in. tauto.
    + intros l. now apply app_langs_unused.
  - intros w r. split; [apply cli_subtitles_consecutive|].
    intros Hs. split.
    + intros t Ht.
      pose proof (cli_no_subtitles_emitted w r t Hs Ht) as Hn.
      split; [exact Hn|]. rewrite cli_cmd_in. tauto.
    + intros l. now apply cli_langs_unused.
Qed.

(** C4, the theorem at concrete calls: both entry points with the
    subtitles option and the languages [en,es]. *)
Lemma subtitle_tokens_witness :
  consecutive ["--write-subs"; "--sub-langs"; "en,es"]
    (App.download_cmd None "" SubtitleRequests.app_subtitles)
  /\ consecutive ["--write-subs"; "--sub-langs"; "en,es"]
       (Cli.download_cmd Scenario.all_fine SubtitleRequests.cli_subtitles).
Proof.
  split.
  - apply (proj1 (proj1 subtitle_tokens None ""
                    SubtitleRequests.app_subtitles)).
    simpl. now left.
  - apply (proj1 (proj2 subtitle_tokens Scenario.all_fine
                    SubtitleRequests.cli_subtitles)).
    reflexivity.
Defined.

(** C4, two calls without the subtitles option on which the claim
    fails: the languages string [mp3] is a token of the audio command,
    and a URL that reads [--write-subs] is a token of the command. *)
Lemma subtitle_tokens_counterexample :
  (Cli.subtitles SubtitleRequests.cli_langs_mp3 = false
   /\ In (Cli.subtitles_lang SubtitleRequests.cli_langs_mp3)
        (Cli.download_cmd Scenario.all_fine SubtitleRequests.cli_langs_mp3))
  /\ (Cli.subtitles SubtitleRequests.cli_write_subs_url = false
      /\ In "--write-subs"
           (Cli.download_cmd Scenario.all_fine
              SubtitleRequests.cli_write_subs_url)).
Proof.
  repeat split; vm_compute; tauto.
Qed.

(** ** Format against audio-only *)

Lemma opt_truthy_some (o : option string) (f : string) :
  o = Some f -> f <> "" -> opt_truthy o = true.
Proof.
  intros -> Hf. simpl. unfold str_truthy.
  destruct (String.eqb_spec f ""); [contradiction | reflexivity].
Qed.

Lemma cli_format_part_given r f :
  Cli.format r = Some f -> f <> "" ->
  Cli.format_part r = [Fixed "-f"; Given f].
Proof.
  intros Hr Hf. unfold Cli.format_part.
  rewrite (opt_truthy_some _ _ Hr Hf), Hr. reflexivity.
Qed.

Lemma cli_format_emits_no_audio w r f t :
  Cli.format r = Some f -> f <> "" ->
  t = "--extract-audio" \/ t = "--audio-format" ->
  ~ In t (Cli.emitted w r).
Proof.
  intros Hr Hf Ht. rewrite cli_emitted_in.
  rewrite (cli_format_part_given r f Hr Hf).
  destruct Ht as [-> | ->];
    intros [H|[H|[H|[H|[H|[H|[H|[H|H]]]]]]]];
    try discriminate H; try (absurd_block H; fail).
Qed.

Lemma cli_audio_only_unused w r f b :
  Cli.format r = Some f -> f <> "" ->
  Cli.download_cmd w (CookieRequests.with_audio_only b r)
  = Cli.download_cmd w r.
Proof.
  intros Hr Hf. pose proof (opt_truthy_some _ _ Hr Hf) as Ht.
  unfold Cli.download_cmd, Cli.add_options, Cli.add_metadata,
    Cli.add_playlist, Cli.add_subtitles, Cli.add_output_template,
    Cli.add_format_selection, Cli.add_cookies,
    CookieRequests.with_audio_only.
  cbn [Cli.urls Cli.format Cli.audio_only Cli.output_template Cli.subtitles
       Cli.subtitles_lang Cli.playlist Cli.metadata Cli.thumbnail
       Cli.sponsorblock Cli.cookies Cli.browser].
  rewrite Ht. reflexivity.
Qed.

(** C10, as the code has it: in the flag-parsing entry point a
    non-empty format string takes precedence over the audio-only
    option.  The format block is then [-f] followed by the format
    string, the audio-only switch has no effect on the command, and the
    builder emits neither [--extract-audio] nor [--audio-format]; these
    are in the command only where a value passed through from the
    arguments is itself that text. *)
Theorem format_precedes_audio_only :
  forall w r f,
    Cli.format r = Some f -> f <> "" ->
    Cli.format_part r = [Fixed "-f"; Given f]
    /\ consecutive ["-f"; f] (Cli.download_cmd w r)
    /\ (forall b,
           Cli.download_cmd w (CookieRequests.with_audio_only b r)
           = Cli.download_cmd w r)
    /\ (forall t, t = "--extract-audio" \/ t = "--audio-format" ->
                  ~ In t (Cli.emitted w r)
                  /\ (In t (Cli.download_cmd w r) <-> In t (Cli.passed w r))).
Proof.
  intros w r f Hr Hf.
  pose proof (cli_format_part_given r f Hr Hf) as Hp.
  split; [exact Hp|]. split; [|split].
  - rewrite cli_cmd_around_format, Hp.
    eexists. eexists. cbn [map text]. reflexivity.
  - intros b. now apply cli_audio_only_unused with (f := f).
  - intros t Ht.
    pose proof (cli_format_emits_no_audio w r f t Hr Hf Ht) as Hn.
    split; [exact Hn|]. rewrite cli_cmd_in. tauto.
Qed.

(** C10, the theorem at a concrete call: [-f best -a]. *)
Lemma format_precedes_audio_only_witness :
  consecutive ["-f"; "best"]
    (Cli.download_cmd Scenario.all_fine CookieRequests.format_and_audio)
  /\ ~ In "--extract-audio"
       (Cli.download_cmd Scenario.all_fine CookieRequests.format_and_audio).
Proof.
  assert (Hne : "best" <> "") by discriminate.
  destruct (format_precedes_audio_only Scenario.all_fine
              CookieRequests.format_and_audio "best" eq_refl Hne)
    as (_ & Hc & _ & Ht).
  split; [exact Hc|].
  destruct (Ht "--extract-audio" (or_introl eq_refl)) as [_ Hi].
  intros H. apply Hi in H. vm_compute in H. intuition discriminate.
Defined.

(** C10, two calls with a format string and the audio-only switch on
    which the claim fails: an empty format string is not taken (the
    audio tokens are emitted and no [-f]), and a URL that reads
    [--extract-audio] puts that token into the command. *)
Lemma format_precedes_audio_only_counterexample :
  (Cli.format CookieRequests.empty_format_and_audio = Some ""
   /\ Cli.audio_only CookieRequests.empty_format_and_audio = true
   /\ Cli.download_cmd Scenario.all_fine CookieRequests.empty_format_and_audio
      = ["yt-dlp"; "--extract-audio"; "--audio-format"; "mp3";
         "--no-playlist"; "https://example.com/watch?v=1"])
  /\ (Cli.format CookieRequests.format_audio_flag_url = Some "best"
      /\ Cli.audio_only CookieRequests.format_audio_flag_url = true
      /\ In "--extract-audio"
           (Cli.download_cmd Scenario.all_fine
              CookieRequests.format_audio_flag_url)).
Proof.
  repeat split. vm_compute. tauto.
Qed.

(** ** Cookie sources *)

Lemma app_auth_part_cases sc r :
  App.auth_part sc r = []
  \/ App.auth_part sc r = [Fixed "--cookies"; Given (opt_str sc)]
  \/ App.auth_part sc r
     = [Fixed "--cookies-from-browser";
        Given (opt_str (App.browser_cookies r))].
Proof. unfold App.auth_part. split_ifs; auto. Qed.

Lemma cli_auth_part_cases w r :
  Cli.auth_part w r = []
  \/ Cli.auth_part w r = [Fixed "--cookies"; Given (opt_str (Cli.cookies r))]
  \/ Cli.auth_part w r
     = [Fixed "--cookies-from-browser"; Given (opt_str (Cli.browser r))].
Proof. unfold Cli.auth_part. split_ifs; auto. Qed.

Lemma app_cookie_flag_in_auth sc fc r t :
  t = "--cookies" \/ t = "--cookies-from-browser" ->
  In t (App.emitted sc fc r) -> In t (fixed_of (App.auth_part sc r)).
Proof.
  intros Ht. rewrite app_emitted_in, app_extra_fixed_in.
  destruct Ht as [-> | ->];
    intros [H|[H|[H|[H|[_ [H|[H|[H|[H|H]]]]]]]]];
    try discriminate H; try exact H; absurd_block H.
Qed.

Lemma cli_cookie_flag_in_auth w r t :
  t = "--cookies" \/ t = "--cookies-from-browser" ->
  In t (Cli.emitted w r) -> In t (fixed_of (Cli.auth_part w r)).
Proof.
  intros Ht. rewrite cli_emitted_in.
  destruct Ht as [-> | ->];
    intros [H|[H|[H|[H|[H|[H|[H|[H|H]]]]]]]];
    try discriminate H; try exact H; absurd_block H.
Qed.

Lemma app_one_cookie_flag sc fc r :
  ~ (In "--cookies" (App.emitted sc fc r)
     /\ In "--cookies-from-browser" (App.emitted sc fc r)).
Proof.
  intros [H1 H2].
  apply app_cookie_flag_in_auth in H1; [|now left].
  apply app_cookie_flag_in_auth in H2; [|now right].
  destruct (app_auth_part_cases sc r) as [E|[E|E]];
    rewrite E in H1, H2; simpl in H1, H2; intuition discriminate.
Qed.

Lemma cli_one_cookie_flag w r :
  ~ (In "--cookies" (Cli.emitted w r)
     /\ In "--cookies-from-browser" (Cli.emitted w r)).
Proof.
  intros [H1 H2].
  apply cli_cookie_flag_in_auth in H1; [|now left].
  apply cli_cookie_flag_in_auth in H2; [|now right].
  destruct (cli_auth_part_cases w r) as [E|[E|E]];
    rewrite E in H1, H2; simpl in H1, H2; intuition discriminate.
Qed.

Lemma cli_main_both_sources w a s :
  opt_truthy (Cli.cookies a) = true ->
  opt_truthy (Cli.browser a) = true ->
  Cli.main w a s
  = (Exit 1,
     log_line
       (Text "Error: Please specify either --cookies or --browser, not both")
       s).
Proof.
  intros Hc Hb. unfold Cli.main. rewrite Hc, Hb. reflexivity.
Qed.

(** C8, as the code has it: the authentication block of either builder
    is empty, [--cookies] with a path, or [--cookies-from-browser] with a
    browser, so the builder never emits both flags; the command holds
    both tokens only where a value passed through from the arguments is
    itself one of them.  In the interactive entry point a cookies file
    that is found and accepted is used whatever browser is named.  In
    the flag-parsing entry point [main] with both [--cookies] and
    [--browser] prints an error and exits with status 1 before anything
    is run. *)
Theorem at_most_one_cookie_source :
  (forall sc fc r,
      (App.auth_part sc r = []
       \/ App.auth_part sc r = [Fixed "--cookies"; Given (opt_str sc)]
       \/ App.auth_part sc r
          = [Fixed "--cookies-from-browser";
             Given (opt_str (App.browser_cookies r))])
      /\ ~ (In "--cookies" (App.emitted sc fc r)
            /\ In "--cookies-from-browser" (App.emitted sc fc r))
      /\ (In "--cookies" (App.download_cmd sc fc r) ->
          In "--cookies-from-browser" (App.download_cmd sc fc r) ->
          In "--cookies" (App.passed sc fc r)
          \/ In "--cookies-from-browser" (App.passed sc fc r))
      /\ (App.use_cookies r = true -> opt_truthy sc = true ->
          App.auth_part sc r = [Fixed "--cookies"; Given (opt_str sc)]
          /\ (exists rest,
                 App.download_cmd sc fc r
                 = "yt-dlp" :: "--cookies" :: opt_str sc :: rest)
          /\ ~ In "--cookies-from-browser" (App.emitted sc fc r)))
  /\ (forall w r,
         (Cli.auth_part w r = []
          \/ Cli.auth_part w r
             = [Fixed "--cookies"; Given (opt_str (Cli.cookies r))]
          \/ Cli.auth_part w r
             = [Fixed "--cookies-from-browser";
                Given (opt_str (Cli.browser r))])
         /\ ~ (In "--cookies" (Cli.emitted w r)
               /\ In "--cookies-from-browser" (Cli.emitted w r))
         /\ (In "--cookies" (Cli.download_cmd w r) ->
             In "--cookies-from-browser" (Cli.download_cmd w r) ->
             In "--cookies" (Cli.passed w r)
             \/ In "--cookies-from-browser" (Cli.passed w r)))
  /\ (forall w a s,
         opt_truthy (Cli.cookies a) = true ->
         opt_truthy (Cli.browser a) = true ->
         fst (Cli.main w a s) = Exit 1
         /\ calls (snd (Cli.main w a s)) = calls s).
Proof.
  split; [|split].
  - intros sc fc r. split; [apply app_auth_part_cases|].
    pose proof (app_one_cookie_flag sc fc r) as Hn.
    split; [exact Hn|]. split.
    + rewrite !app_cmd_in. tauto.
    + intros Hu Hs.
      assert (E : App.auth_part sc r = [Fixed "--cookies"; Given (opt_str sc)])
        by (unfold App.auth_part; now rewrite Hu, Hs).
      split; [exact E|]. split.
      * rewrite app_cmd_around_format, E. eexists. reflexivity.
      * intros H. apply app_cookie_flag_in_auth in H; [|now right].
        rewrite E in H. simpl in H. intuition discriminate.
  - intros w r. split; [apply cli_auth_part_cases|].
    pose proof (cli_one_cookie_flag w r) as Hn.
    split; [exact Hn|]. rewrite !cli_cmd_in. tauto.
  - intros w a s Hc Hb. now rewrite (cli_main_both_sources w a s Hc Hb).
Qed.

(** C8, the theorem at concrete calls: the interactive builder with an
    accepted cookies file and a browser named uses the file, and [main]
    with both sources exits with status 1 and runs nothing. *)
Lemma at_most_one_cookie_source_witness :
  App.auth_part (Some "cookies.txt") CookieRequests.app_cookies_and_browser
  = [Fixed "--cookies"; Given "cookies.txt"]
  /\ fst (Cli.main Scenario.with_cookies_txt CookieRequests.both_sources
            init_state) = Exit 1
  /\ calls (snd (Cli.main Scenario.with_cookies_txt
                   CookieRequests.both_sources init_state)) = [].
Proof.
  split.
  - exact (proj1 (proj2 (proj2 (proj2 (proj1 at_most_one_cookie_source
                                         (Some "cookies.txt") ""
                                         CookieRequests.app_cookies_and_browser)))
                    eq_refl eq_refl)).
  - exact (proj2 (proj2 at_most_one_cookie_source)
             Scenario.with_cookies_txt CookieRequests.both_sources
             init_state eq_refl eq_refl).
Defined.

(** C8, two runs on which the claim fails: with [--browser=--cookies]
    and no cookies file the command holds both [--cookies-from-browser]
    and [--cookies]; and with an empty [--cookies] path next to
    [--browser firefox], [main] does not stop with an error but runs the
    download with the browser's cookies. *)
Lemma both_cookie_tokens_counterexample :
  (Cli.download_cmd Scenario.all_fine CookieRequests.browser_named_cookies
   = ["yt-dlp"; "--cookies-from-browser"; "--cookies"; "--no-playlist";
      "https://example.com/watch?v=1"]
   /\ calls (snd (Cli.main Scenario.all_fine
                    CookieRequests.browser_named_cookies init_state))
      = [Scenario.version_cmd;
         ["yt-dlp"; "--cookies-from-browser"; "--cookies"; "--no-playlist";
          "https://example.com/watch?v=1"]]
   /\ In "--cookies"
        (Cli.download_cmd Scenario.all_fine
           CookieRequests.browser_named_cookies)
   /\ In "--cookies-from-browser"
        (Cli.download_cmd Scenario.all_fine
           CookieRequests.browser_named_cookies))
  /\ (Cli.cookies CookieRequests.empty_cookies_and_browser = Some ""
      /\ Cli.browser CookieRequests.empty_cookies_and_browser
         = Some "firefox"
      /\ fst (Cli.main Scenario.all_fine
                CookieRequests.empty_cookies_and_browser init_state)
         = Ret tt
      /\ calls (snd (Cli.main Scenario.all_fine
                       CookieRequests.empty_cookies_and_browser init_state))
         = [Scenario.version_cmd;
            ["yt-dlp"; "--cookies-from-browser"; "firefox"; "--no-playlist";
             "https://example.com/watch?v=1"]]).
Proof.
  repeat split; vm_compute; tauto.
Qed.

(** ** A cookies file that is missing *)

Lemma cli_missing_cookies_cmd w r p :
  Cli.cookies r = Some p -> p <> "" -> path_exists w p = false ->
  Cli.download_cmd w r
  = Cli.download_cmd w (CookieRequests.without_cookie_source r).
Proof.
  intros Hr Hp He. pose proof (opt_truthy_some _ _ Hr Hp) as Ht.
  unfold Cli.download_cmd, Cli.add_options, Cli.add_metadata,
    Cli.add_playlist, Cli.add_subtitles, Cli.add_output_template,
    Cli.add_format_selection, Cli.add_cookies,
    CookieRequests.without_cookie_source.
  cbn [Cli.urls Cli.format Cli.audio_only Cli.output_template Cli.subtitles
       Cli.subtitles_lang Cli.playlist Cli.metadata Cli.thumbnail
       Cli.sponsorblock Cli.cookies Cli.browser].
  rewrite Ht, Hr. cbn [opt_str opt_truthy]. rewrite He. reflexivity.
Qed.

Lemma cli_missing_cookies_warned w r s p :
  Cli.cookies r = Some p -> p <> "" -> path_exists w p = false ->
  Cli.warned w r s = log_line (Text (Cli.missing_cookies_warning p)) s.
Proof.
  intros Hr Hp He. unfold Cli.warned.
  rewrite (opt_truthy_some _ _ Hr Hp), Hr. cbn [opt_str].
  now rewrite He.
Qed.

Lemma cli_missing_cookies_emits_no_flag w r p :
  Cli.cookies r = Some p -> p <> "" -> path_exists w p = false ->
  ~ In "--cookies" (Cli.emitted w r).
Proof.
  intros Hr Hp He H.
  apply cli_cookie_flag_in_auth in H; [|now left].
  revert H. unfold Cli.auth_part.
  rewrite (opt_truthy_some _ _ Hr Hp), Hr. cbn [opt_str]. rewrite He.
  simpl. tauto.
Qed.

(** C9: in the flag-parsing entry point, when a cookies file is named
    and no file exists at that path, [download] prints the warning and
    then goes on exactly as a call without any cookie source: the
    command is the one built without [--cookies] (the builder emits no
    [--cookies]), it is handed to [subprocess.run], and the outcome of
    the call is the outcome of that process.  A path that is named is a
    non-empty string: [if cookies:] tests the string before the file
    system is looked at, and the empty path is the current directory. *)
Theorem missing_cookies_file_is_skipped :
  forall w r s p,
    Cli.cookies r = Some p -> p <> "" -> path_exists w p = false ->
    Cli.download w r s
    = Cli.download w (CookieRequests.without_cookie_source r)
        (log_line (Text (Cli.missing_cookies_warning p)) s)
    /\ Cli.download_cmd w r
       = Cli.download_cmd w (CookieRequests.without_cookie_source r)
    /\ ~ In "--cookies" (Cli.emitted w r)
    /\ (exists rest,
           stdout (snd (Cli.download w r s))
           = stdout s ++ Text (Cli.missing_cookies_warning p) :: rest)
    /\ calls (snd (Cli.download w r s)) = calls s ++ [Cli.download_cmd w r]
    /\ fst (Cli.download w r s)
       = relayed (Cli.download_cmd w r)
           (run_result w (calls s) (Cli.download_cmd w r)).
Proof.
  intros w r s p Hr Hp He.
  pose proof (cli_missing_cookies_cmd w r p Hr Hp He) as Hc.
  pose proof (cli_missing_cookies_warned w r s p Hr Hp He) as Hw.
  split; [|split; [exact Hc|split; [|split; [|split]]]].
  - rewrite !cli_download_run. cbv zeta. rewrite <- Hc, Hw.
    unfold Cli.warned, CookieRequests.without_cookie_source.
    cbn [Cli.cookies opt_truthy andb calls log_line]. reflexivity.
  - now apply cli_missing_cookies_emits_no_flag with (p := p).
  - rewrite cli_download_run. cbv zeta. rewrite Hw.
    destruct (run_result w (calls s) _) as [rc|];
      [destruct (rc =? 0)%Z|]; cbn [snd stdout log_line log_call].
    + now exists [].
    + eexists. rewrite <- app_assoc. reflexivity.
    + now exists [].
  - rewrite cli_download_run. cbv zeta.
    destruct (run_result w (calls s) _) as [rc|];
      [destruct (rc =? 0)%Z|]; rewrite Hw; reflexivity.
  - apply cli_download_outcome.
Qed.

(** C9, the theorem at a concrete call: [--cookies missing.txt] where no
    such file exists; the download is run without [--cookies] and
    returns normally. *)
Lemma missing_cookies_file_is_skipped_witness :
  calls (snd (Cli.download Scenario.all_fine CookieRequests.missing_cookies
                init_state))
  = [["yt-dlp"; "--no-playlist"; "https://example.com/watch?v=1"]]
  /\ fst (Cli.download Scenario.all_fine CookieRequests.missing_cookies
            init_state) = Ret tt.
Proof.
  assert (Hne : "missing.txt" <> "") by discriminate.
  destruct (missing_cookies_file_is_skipped Scenario.all_fine
              CookieRequests.missing_cookies init_state "missing.txt"
              eq_refl Hne eq_refl)
    as (_ & _ & _ & _ & Hcalls & Hout).
  split.
  - rewrite Hcalls. reflexivity.
  - rewrite Hout. reflexivity.
Defined.

(** ** The [cookies_path] attribute is a frame of every method *)

Lemma keeps_ret {A} (a : A) : keeps_cookies_path (ret a).
Proof. now intros s. Qed.

Lemma keeps_print l : keeps_cookies_path (print l).
Proof. now intros s. Qed.

Lemma keeps_sys_exit {A} c : keeps_cookies_path (@sys_exit A c).
Proof. now intros s. Qed.

Lemma keeps_raise {A} e : keeps_cookies_path (@raise A e).
Proof. now intros s. Qed.

Lemma keeps_get_cookies_path : keeps_cookies_path get_cookies_path.
Proof. now intros s. Qed.

Lemma keeps_subprocess_run w cmd : keeps_cookies_path (subprocess_run w cmd).
Proof.
  intros s. unfold subprocess_run.
  destruct (run_result w (calls s) cmd) as [rc|];
    [destruct (rc =? 0)%Z|]; reflexivity.
Qed.

Lemma keeps_bind {A B} (m : M A) (k : A -> M B) :
  keeps_cookies_path m -> (forall a, keeps_cookies_path (k a)) ->
  keeps_cookies_path (bind m k).
Proof.
  intros Hm Hk s. unfold bind. specialize (Hm s).
  destruct (m s) as [[a|c|e] s']; simpl in *; try assumption.
  now rewrite Hk.
Qed.

Lemma keeps_try_except {A} (body : M A) handles handler :
  keeps_cookies_path body -> (forall e, keeps_cookies_path (handler e)) ->
  keeps_cookies_path (try_except body handles handler).
Proof.
  intros Hb Hh s. unfold try_except. specialize (Hb s).
  destruct (body s) as [[a|c|e] s']; simpl in *; try assumption.
  destruct (handles e); simpl; [now rewrite Hh | assumption].
Qed.

Create HintDb frame.
#[local] Hint Resolve keeps_ret keeps_print keeps_sys_exit keeps_raise
  keeps_get_cookies_path keeps_subprocess_run : frame.

Ltac frame_step :=
  first
    [ apply keeps_bind; [|intro]
    | apply keeps_try_except; [|intro]
    | solve [auto with frame]
    | match goal with
      | |- keeps_cookies_path (if ?c then _ else _) => destruct c
      | |- keeps_cookies_path (match ?x with _ => _ end) => destruct x
      end
    | progress cbv zeta ].

Ltac frame := repeat frame_step.

Lemma app_keeps_get_available_formats w url uc :
  keeps_cookies_path (App.get_available_formats w url uc).
Proof. unfold App.get_available_formats. frame. Qed.

Lemma app_keeps_download w user r :
  keeps_cookies_path (App.download w user r).
Proof. unfold App.download. frame. Qed.

Lemma app_keeps_prompt_use_cookies answer :
  keeps_cookies_path (App.prompt_use_cookies answer).
Proof. unfold App.prompt_use_cookies. frame. Qed.

Lemma app_keeps_run_interactive w user :
  keeps_cookies_path (App.run_interactive w user).
Proof.
  pose proof (app_keeps_get_available_formats w) as Hf.
  pose proof (app_keeps_download w user) as Hd.
  pose proof app_keeps_prompt_use_cookies as Hp.
  unfold App.run_interactive, App.banner, App.choose_download_type,
    App.settings_and_download, App.first_url.
  repeat first [frame_step | apply Hf | apply Hd | apply Hp].
Qed.

Lemma app_download_calls w user r s :
  calls (snd (App.download w user r s))
  = calls s
    ++ [App.download_cmd (cookies_path s) (App.ans_format_choice user) r].
Proof.
  rewrite app_download_run. cbv zeta.
  destruct (run_result w (calls s) _) as [rc|];
    [destruct (rc =? 0)%Z|]; reflexivity.
Qed.

Lemma cli_download_calls w r s :
  calls (snd (Cli.download w r s)) = calls s ++ [Cli.download_cmd w r].
Proof.
  rewrite cli_download_run. cbv zeta.
  assert (Hw : calls (Cli.warned w r s) = calls s).
  { unfold Cli.warned. now destruct (_ && _). }
  destruct (run_result w (calls s) _) as [rc|];
    [destruct (rc =? 0)%Z|]; cbn [snd calls log_line log_call];
    now rewrite Hw.
Qed.

Lemma app_init_run w s :
  App.init w s
  = if succeeded (run_result w (calls s) Scenario.version_cmd) then
      (Ret tt,
       {| cookies_path := App.find_cookies_file w;
          calls := calls s ++ [Scenario.version_cmd];
          stdout := stdout s |})
    else
      (Exit 1,
       log_line
         (Text "Installation instructions: https://github.com/yt-dlp/yt-dlp#installation")
         (log_line
            (Text "❌ Error: yt-dlp not found. Please install it first.")
            (log_call Scenario.version_cmd s))).
Proof.
  unfold App.init, App.check_ytdlp_installed, bind, try_except,
    subprocess_run, set_cookies_path, print, sys_exit, succeeded.
  change ["yt-dlp"; "--version"] with Scenario.version_cmd.
  destruct (run_result w (calls s) Scenario.version_cmd) as [rc|];
    [destruct (rc =? 0)%Z|]; reflexivity.
Qed.

(** C7: the [cookies_path] attribute is set by the constructor, to what
    [find_cookies_file] returns, and no method changes it afterwards:
    [download], [get_available_formats] and the whole dialogue of
    [run_interactive] leave it as it was, however they end.  The command
    list is local to one call of [download]: the command that a call
    runs is built from that call's arguments alone, also right after
    another call. *)
Theorem cookies_path_is_a_frame :
  (forall w s,
      succeeded (run_result w (calls s) Scenario.version_cmd) = true ->
      fst (App.init w s) = Ret tt
      /\ cookies_path (snd (App.init w s)) = App.find_cookies_file w)
  /\ (forall w user r s,
         cookies_path (snd (App.download w user r s)) = cookies_path s)
  /\ (forall w url uc s,
         cookies_path (snd (App.get_available_formats w url uc s))
         = cookies_path s)
  /\ (forall w user s,
         cookies_path (snd (App.run_interactive w user s)) = cookies_path s)
  /\ (forall w user r1 r2 s,
         calls (snd (App.download w user r2
                       (snd (App.download w user r1 s))))
         = calls s
           ++ [App.download_cmd (cookies_path s)
                 (App.ans_format_choice user) r1;
               App.download_cmd (cookies_path s)
                 (App.ans_format_choice user) r2]).
Proof.
  split; [|split; [|split; [|split]]].
  - intros w s H. rewrite app_init_run, H. now split.
  - intros w user r. apply app_keeps_download.
  - intros w url uc. apply app_keeps_get_available_formats.
  - intros w user. apply app_keeps_run_interactive.
  - intros w user r1 r2 s.
    rewrite !app_download_calls, app_keeps_download, <- app_assoc.
    reflexivity.
Qed.

(** C7, the theorem at a concrete run: with [cookies.txt] in place the
    constructor finds it. *)
Lemma cookies_path_is_a_frame_witness :
  cookies_path (snd (App.init Scenario.with_cookies_txt init_state))
  = Some "cookies.txt".
Proof.
  exact (proj2 (proj1 cookies_path_is_a_frame Scenario.with_cookies_txt
                  init_state eq_refl)).
Defined.

(** ** How many times the external program is run *)

Lemma bind_cases {A B} (m : M A) (k : A -> M B) (s : state) :
  (exists a, fst (m s) = Ret a /\ bind m k s = k a (snd (m s)))
  \/ snd (bind m k s) = snd (m s).
Proof.
  unfold bind. destruct (m s) as [[a|c|e] s']; simpl.
  - left. now exists a.
  - now right.
  - now right.
Qed.

Lemma nothing_ret {A} (a : A) : runs_nothing (ret a).
Proof. now intros s. Qed.

Lemma nothing_print l : runs_nothing (print l).
Proof. now intros s. Qed.

Lemma nothing_raise {A} e : runs_nothing (@raise A e).
Proof. now intros s. Qed.

Lemma nothing_get_cookies_path : runs_nothing get_cookies_path.
Proof. now intros s. Qed.

Lemma nothing_bind {A B} (m : M A) (k : A -> M B) :
  runs_nothing m -> (forall a, runs_nothing (k a)) -> runs_nothing (bind m k).
Proof.
  intros Hm Hk s. unfold bind. specialize (Hm s).
  destruct (m s) as [[a|c|e] s']; simpl in *; try assumption.
  now rewrite Hk.
Qed.

Lemma app_banner_nothing : runs_nothing App.banner.
Proof.
  unfold App.banner.
  repeat (apply nothing_bind; [apply nothing_print | intros _]).
  apply nothing_print.
Qed.

Lemma app_banner_keeps : keeps_cookies_path App.banner.
Proof. unfold App.banner. frame. Qed.

Lemma app_prompt_use_cookies_nothing answer :
  runs_nothing (App.prompt_use_cookies answer).
Proof.
  unfold App.prompt_use_cookies.
  apply nothing_bind; [apply nothing_get_cookies_path | intros c].
  destruct (negb (opt_truthy c)); apply nothing_ret.
Qed.

Lemma app_formats_calls w url uc s :
  calls (snd (App.get_available_formats w url uc s))
  = calls s ++ [App.formats_cmd (cookies_path s) url uc].
Proof.
  unfold App.get_available_formats, bind, get_cookies_path, print,
    try_except, subprocess_run.
  cbn [calls log_line].
  destruct (run_result w (calls s) _) as [rc|];
    [destruct (rc =? 0)%Z|]; reflexivity.
Qed.

Lemma app_choose_download_type_calls w user us s :
  exists l,
    calls (snd (App.choose_download_type w user us s)) = calls s ++ l
    /\ listing_or_none (cookies_path s) l
    /\ cookies_path (snd (App.choose_download_type w user us s))
       = cookies_path s.
Proof.
  unfold App.choose_download_type. cbv zeta.
  destruct (App.type_value (App.ans_download_type user) =? "list").
  - destruct us as [|u us]; simpl App.first_url.
    + exists []. rewrite app_nil_r. repeat split. now left.
    + pose proof (app_prompt_use_cookies_nothing
                    (App.ans_list_use_cookies user) s) as Hn.
      pose proof (app_keeps_prompt_use_cookies
                    (App.ans_list_use_cookies user) s) as Hk.
      unfold bind, ret.
      destruct (App.prompt_use_cookies (App.ans_list_use_cookies user) s)
        as [[uc|c|e] s1]; simpl in Hn, Hk.
      * pose proof (app_formats_calls w u uc s1) as Hf.
        pose proof (app_keeps_get_available_formats w u uc s1) as Hc.
        destruct (App.get_available_formats w u uc s1) as [[[]|c|e] s2];
          simpl in Hf, Hc; cbn [snd];
          (exists [App.formats_cmd (cookies_path s) u uc];
           rewrite Hf, Hn, Hc, Hk; repeat split;
           right; now exists u, uc).
      * exists []. cbn [snd]. rewrite app_nil_r. repeat split; auto.
        now left.
      * exists []. cbn [snd]. rewrite app_nil_r. repeat split; auto.
        now left.
  - exists []. simpl. rewrite app_nil_r. repeat split. now left.
Qed.

Lemma app_settings_and_download_calls w user us dtype s :
  exists l,
    calls (snd (App.settings_and_download w user us dtype s)) = calls s ++ l
    /\ download_or_none (cookies_path s) (App.ans_format_choice user) l.
Proof.
  unfold App.settings_and_download.
  pose proof (app_prompt_use_cookies_nothing (App.ans_use_cookies user) s)
    as Hn.
  pose proof (app_keeps_prompt_use_cookies (App.ans_use_cookies user) s)
    as Hk.
  unfold bind at 1.
  destruct (App.prompt_use_cookies (App.ans_use_cookies user) s)
    as [[uc|c|e] s1]; simpl in Hn, Hk.
  - unfold bind, get_cookies_path, print. cbv zeta.
    destruct (App.ans_confirm user).
    + eexists. rewrite app_download_calls.
      cbn [calls cookies_path log_line]. rewrite Hn, Hk.
      split; [reflexivity|]. right. eexists. reflexivity.
    + exists []. cbn [snd calls log_line]. rewrite Hn, app_nil_r.
      split; [reflexivity | now left].
  - exists []. simpl. rewrite app_nil_r. split; [assumption | now left].
  - exists []. simpl. rewrite app_nil_r. split; [assumption | now left].
Qed.

Lemma app_run_interactive_calls w user s :
  exists listing downloading,
    calls (snd (App.run_interactive w user s))
    = calls s ++ listing ++ downloading
    /\ listing_or_none (cookies_path s) listing
    /\ download_or_none (cookies_path s) (App.ans_format_choice user)
         downloading.
Proof.
  unfold App.run_interactive. cbv zeta.
  pose proof (app_banner_nothing s) as Hbn.
  pose proof (app_banner_keeps s) as Hbk.
  destruct (bind_cases App.banner
              (fun _ =>
                 dtype <- App.choose_download_type w user
                            (split (App.ans_url user)) ;;
                 App.settings_and_download w user
                   (split (App.ans_url user)) dtype) s)
    as [(a & _ & ->) | ->].
  - set (s1 := snd (App.banner s)) in *.
    destruct (app_choose_download_type_calls w user
                (split (App.ans_url user)) s1) as (l1 & Hc1 & Hl1 & Hk1).
    destruct (bind_cases
                (App.choose_download_type w user (split (App.ans_url user)))
                (fun dtype =>
                   App.settings_and_download w user
                     (split (App.ans_url user)) dtype) s1)
      as [(d & _ & ->) | ->].
    + destruct (app_settings_and_download_calls w user
                  (split (App.ans_url user)) d
                  (snd (App.choose_download_type w user
                          (split (App.ans_url user)) s1)))
        as (l2 & Hc2 & Hl2).
      exists l1, l2. rewrite Hc2, Hc1, Hbn, <- app_assoc.
      rewrite Hk1, Hbk in Hl2. rewrite Hbk in Hl1. auto.
    + exists l1, []. rewrite Hc1, Hbn, app_nil_r.
      rewrite Hbk in Hl1. repeat split; auto. now left.
  - exists [], []. rewrite Hbn. simpl. rewrite app_nil_r.
    repeat split; now left.
Qed.

Lemma cli_init_run w s :
  Cli.init w s
  = if succeeded (run_result w (calls s) Scenario.version_cmd) then
      (Ret tt, log_call Scenario.version_cmd s)
    else
      (Exit 1,
       log_line
         (Text "Installation instructions: https://github.com/yt-dlp/yt-dlp#installation")
         (log_line (Text "Error: yt-dlp not found. Please install it first.")
            (log_call Scenario.version_cmd s))).
Proof.
  unfold Cli.init, Cli.check_ytdlp_installed, bind, try_except,
    subprocess_run, print, sys_exit, succeeded.
  change ["yt-dlp"; "--version"] with Scenario.version_cmd.
  destruct (run_result w (calls s) Scenario.version_cmd) as [rc|];
    [destruct (rc =? 0)%Z|]; reflexivity.
Qed.

Lemma cli_main_calls w a s :
  calls (snd (Cli.main w a s))
  = calls s
    ++ (if opt_truthy (Cli.cookies a) && opt_truthy (Cli.browser a) then []
        else if succeeded (run_result w (calls s) Scenario.version_cmd) then
          [Scenario.version_cmd; Cli.download_cmd w a]
        else [Scenario.version_cmd]).
Proof.
  unfold Cli.main.
  destruct (opt_truthy (Cli.cookies a) && opt_truthy (Cli.browser a)).
  - simpl. now rewrite app_nil_r.
  - unfold bind at 1. rewrite cli_init_run.
    destruct (succeeded _).
    + rewrite cli_download_calls. cbn [calls log_call].
      now rewrite <- app_assoc.
    + reflexivity.
Qed.

Lemma app_program_calls w user s :
  exists listing downloading,
    calls (snd (App.program w user s))
    = calls s ++ [Scenario.version_cmd] ++ listing ++ downloading
    /\ listing_or_none (App.find_cookies_file w) listing
    /\ download_or_none (App.find_cookies_file w)
         (App.ans_format_choice user) downloading.
Proof.
  unfold App.program, bind at 1. rewrite app_init_run.
  destruct (succeeded _).
  - destruct (app_run_interactive_calls w user
                {| cookies_path := App.find_cookies_file w;
                   calls := calls s ++ [Scenario.version_cmd];
                   stdout := stdout s |})
      as (l1 & l2 & Hc & H1 & H2).
    exists l1, l2. rewrite Hc. cbn [calls cookies_path] in *.
    rewrite <- app_assoc. auto.
  - exists [], []. cbn [snd calls log_line log_call app].
    repeat split; now left.
Qed.

(** C6, as the code has it: a run hands its commands to the external
    program one after the other, and at most one of them is a download.
    The flag-parsing program runs nothing when both cookie sources are
    given, only the version check when that check fails, and otherwise
    the version check followed by the download: two runs.  The
    interactive program runs the version check, then at most one listing
    of formats, then at most one download: between one and three runs. *)
Theorem external_runs_per_program_run :
  (forall w a s,
      calls (snd (Cli.main w a s))
      = calls s
        ++ (if opt_truthy (Cli.cookies a) && opt_truthy (Cli.browser a)
            then []
            else if succeeded (run_result w (calls s) Scenario.version_cmd)
                 then [Scenario.version_cmd; Cli.download_cmd w a]
                 else [Scenario.version_cmd]))
  /\ (forall w a, (length (calls (snd (Cli.main w a init_state))) <= 2)%nat)
  /\ (forall w user s,
         exists listing downloading,
           calls (snd (App.program w user s))
           = calls s ++ [Scenario.version_cmd] ++ listing ++ downloading
           /\ listing_or_none (App.find_cookies_file w) listing
           /\ download_or_none (App.find_cookies_file w)
                (App.ans_format_choice user) downloading)
  /\ (forall w user,
         (1 <= length (calls (snd (App.program w user init_state))) <= 3)%nat).
Proof.
  split; [|split; [|split]].
  - apply cli_main_calls.
  - intros w a. rewrite cli_main_calls. cbn [calls init_state app].
    destruct (_ && _); [|destruct (succeeded _)]; simpl; lia.
  - apply app_program_calls.
  - intros w user.
    destruct (app_program_calls w user init_state)
      as (l1 & l2 & -> & H1 & H2).
    cbn [calls init_state].
    destruct H1 as [-> | (url & uc & ->)];
      destruct H2 as [-> | (r & ->)]; simpl; lia.
Qed.

(** C6, two runs on which the claim fails: the flag-parsing program
    with one URL starts the external program twice, the version check
    and the download; the interactive program, asked to list the
    formats first, starts it three times. *)
Lemma more_than_one_external_run :
  (calls (snd (Cli.main Scenario.all_fine
                 (Cli.default_request Scenario.one_url) init_state))
   = [["yt-dlp"; "--version"];
      ["yt-dlp"; "--no-playlist"; "https://example.com/watch?v=1"]]
   /\ length (calls (snd (Cli.main Scenario.all_fine
                            (Cli.default_request Scenario.one_url)
                            init_state))) <> 1%nat)
  /\ (calls (snd (App.program Scenario.all_fine Dialogue.list_first_user
                    init_state))
      = [["yt-dlp"; "--version"];
         ["yt-dlp"; "-F"; "https://example.com/watch?v=1"];
         ["yt-dlp"; "-f"; App.best_video; "-o"; "%(title)s.%(ext)s";
          "https://example.com/watch?v=1"]]
      /\ length (calls (snd (App.program Scenario.all_fine
                               Dialogue.list_first_user init_state)))
         <> 1%nat).
Proof.
  repeat split; vm_compute; congruence.
Qed.

(** * Further properties of the code *)

(** ** Splitting the answer to the URL prompt *)

Lemma string_of_list_ascii_nonempty (l : list ascii) :
  l <> [] -> string_of_list_ascii l <> "".
Proof. destruct l; [congruence | discriminate]. Qed.

Lemma split_from_tokens (s : string) :
  forall cur,
    (forall c, In c cur -> is_space c = false) ->
    forall u,
      In u (split_from cur s) ->
      u <> ""
      /\ forall c, In c (list_ascii_of_string u) -> is_space c = false.
Proof.
  assert (Htok : forall cur : list ascii,
             cur <> [] ->
             (forall c, In c cur -> is_space c = false) ->
             string_of_list_ascii (rev cur) <> ""
             /\ forall c,
                 In c (list_ascii_of_string (string_of_list_ascii (rev cur))) ->
                 is_space c = false).
  { intros cur Hne Hcur. split.
    - apply string_of_list_ascii_nonempty. intros E.
      apply Hne. rewrite <- (rev_involutive cur), E. reflexivity.
    - intros c. rewrite list_ascii_of_string_of_list_ascii, <- in_rev.
      apply Hcur. }
  induction s as [|a s IH]; intros cur Hcur u Hu; simpl in Hu.
  - destruct cur as [|c0 cur]; [contradiction|].
    destruct Hu as [<-|[]]. now apply Htok.
  - destruct (is_space a) eqn:Ha.
    + destruct cur as [|c0 cur].
      * apply (IH [] (fun c (H : In c []) => match H with end) u Hu).
      * destruct Hu as [<-|Hu].
        -- now apply Htok.
        -- apply (IH [] (fun c (H : In c []) => match H with end) u Hu).
    + apply (IH (a :: cur)); [|exact Hu].
      intros c [<-|Hc]; [exact Ha | now apply Hcur].
Qed.

(** X1: every URL that [run_interactive] takes from the answer is a
    non-empty string without whitespace. *)
Theorem split_tokens_are_words (text u : string) :
  In u (split text) ->
  u <> "" /\ forall c, In c (list_ascii_of_string u) -> is_space c = false.
Proof.
  apply split_from_tokens. intros c [].
Qed.

Lemma split_tokens_are_words_witness :
  "b" <> ""
  /\ forall c, In c (list_ascii_of_string "b") -> is_space c = false.
Proof.
  apply (split_tokens_are_words " a  b " "b").
  vm_compute. tauto.
Defined.

Lemma split_from_nil (s : string) :
  forall cur,
    split_from cur s = [] <->
    cur = [] /\ forall c, In c (list_ascii_of_string s) -> is_space c = true.
Proof.
  induction s as [|a s IH]; intros cur; simpl.
  - destruct cur; split.
    + intros _. split; [reflexivity | intros c []].
    + reflexivity.
    + discriminate.
    + intros [E _]. discriminate.
  - destruct (is_space a) eqn:Ha.
    + destruct cur as [|c0 cur].
      * rewrite IH. split.
        -- intros [_ H]. split; [reflexivity|].
           intros c [<-|Hc]; [exact Ha | now apply H].
        -- intros [_ H]. split; [reflexivity|]. intros c Hc. apply H. now right.
      * split; [discriminate | intros [E _]; discriminate].
    + rewrite IH. split.
      * intros [E _]. discriminate.
      * intros [_ H]. rewrite (H a (or_introl eq_refl)) in Ha. discriminate.
Qed.

Lemma drop_spaces_nil (l : list ascii) :
  Prompt.drop_spaces l = [] <-> forall c, In c l -> is_space c = true.
Proof.
  induction l as [|a l IH]; simpl.
  - split; [intros _ c [] | reflexivity].
  - destruct (is_space a) eqn:Ha.
    + rewrite IH. split.
      * intros H c [<-|Hc]; [exact Ha | now apply H].
      * intros H c Hc. apply H. now right.
    + split; [discriminate|].
      intros H. rewrite (H a (or_introl eq_refl)) in Ha. discriminate.
Qed.

Lemma drop_spaces_head (l : list ascii) :
  match Prompt.drop_spaces l with
  | [] => True
  | c :: _ => is_space c = false
  end.
Proof.
  induction l as [|a l IH]; simpl; [exact I|].
  destruct (is_space a) eqn:Ha; [exact IH | exact Ha].
Qed.

Lemma strip_empty_iff (text : string) :
  Prompt.strip text = ""
  <-> forall c, In c (list_ascii_of_string text) -> is_space c = true.
Proof.
  unfold Prompt.strip. rewrite <- drop_spaces_nil.
  set (l := Prompt.drop_spaces (list_ascii_of_string text)).
  pose proof (drop_spaces_head (list_ascii_of_string text)) as Hh.
  fold l in Hh.
  split.
  - intros E.
    destruct (rev (Prompt.drop_spaces (rev l))) as [|x xs] eqn:Er;
      [|discriminate E].
    apply (f_equal (@rev ascii)) in Er. rewrite rev_involutive in Er.
    simpl in Er. pose proof (proj1 (drop_spaces_nil (rev l)) Er) as Hs.
    destruct l as [|c l']; [reflexivity|].
    rewrite (Hs c) in Hh; [discriminate|].
    apply -> in_rev. now left.
  - intros ->. reflexivity.
Qed.

Lemma validate_iff_split (text : string) :
  Prompt.validate text = true <-> split text <> [].
Proof.
  unfold Prompt.validate, split.
  rewrite (split_from_nil text []), <- strip_empty_iff.
  destruct (Prompt.strip text) as [|c rest]; simpl.
  - split; [discriminate|]. intros H. exfalso. apply H. now split.
  - split; [|reflexivity]. intros _ [_ H]. discriminate.
Qed.

(** X2: the validation of the URL prompt accepts exactly the answers that
    split into at least one URL, so [urls[0]] is defined for every answer
    the prompt lets through; an answer is rejected exactly when all its
    characters are whitespace. *)
Theorem validated_answer_has_a_url (text : string) :
  (Prompt.validate text = true <-> split text <> [])
  /\ (Prompt.validate text = false
      <-> forall c, In c (list_ascii_of_string text) -> is_space c = true).
Proof.
  split; [apply validate_iff_split|].
  rewrite <- strip_empty_iff. unfold Prompt.validate.
  destruct (Prompt.strip text); simpl; split;
    (reflexivity || discriminate).
Qed.

(** ** The version check *)

Lemma app_program_check_failed w user s :
  succeeded (run_result w (calls s) Scenario.version_cmd) = false ->
  App.program w user s = App.init w s.
Proof.
  intros H. unfold App.program, bind. rewrite app_init_run, H. reflexivity.
Qed.

(** X3: when [yt-dlp --version] cannot be run or exits with a nonzero
    status, either program prints its two lines and exits with status 1
    right after that one call: no cookie file is looked for, no prompt is
    answered and no download is run. *)
Theorem missing_ytdlp_stops_the_program (w : world) (s : state) :
  succeeded (run_result w (calls s) Scenario.version_cmd) = false ->
  (forall user,
      fst (App.program w user s) = Exit 1
      /\ calls (snd (App.program w user s))
         = calls s ++ [Scenario.version_cmd]
      /\ cookies_path (snd (App.program w user s)) = cookies_path s
      /\ stdout (snd (App.program w user s))
         = stdout s
           ++ [Text "❌ Error: yt-dlp not found. Please install it first.";
               Text "Installation instructions: https://github.com/yt-dlp/yt-dlp#installation"])
  /\ (forall a,
         opt_truthy (Cli.cookies a) && opt_truthy (Cli.browser a) = false ->
         fst (Cli.main w a s) = Exit 1
         /\ calls (snd (Cli.main w a s)) = calls s ++ [Scenario.version_cmd]
         /\ stdout (snd (Cli.main w a s))
            = stdout s
              ++ [Text "Error: yt-dlp not found. Please install it first.";
                  Text "Installation instructions: https://github.com/yt-dlp/yt-dlp#installation"]).
Proof.
  intros H. split.
  - intros user. rewrite app_program_check_failed by exact H.
    rewrite app_init_run, H. cbn [fst snd calls cookies_path stdout
                                   log_line log_call].
    rewrite <- app_assoc. auto.
  - intros a Ha. unfold Cli.main. rewrite Ha. unfold bind.
    rewrite cli_init_run, H.
    cbn [fst snd calls stdout log_line log_call].
    rewrite <- app_assoc. auto.
Qed.

Lemma missing_ytdlp_stops_the_program_witness :
  fst (Cli.main
         Declining.no_ytdlp
         (Cli.default_request Scenario.one_url) init_state) = Exit 1.
Proof.
  exact (proj1 (proj2 (missing_ytdlp_stops_the_program
                         Declining.no_ytdlp init_state eq_refl)
                  (Cli.default_request Scenario.one_url) eq_refl)).
Defined.

(** ** Listing the formats *)

Lemma app_formats_run w url uc s :
  App.get_available_formats w url uc s
  = let cmd := App.formats_cmd (cookies_path s) url uc in
    let s1 :=
      log_call cmd (log_line (Text (nl ++ "📋 Available formats:")) s) in
    match run_result w (calls s) cmd with
    | Exited rc =>
        if (rc =? 0)%Z then (Ret tt, s1)
        else
          (Ret tt,
           log_line (TextExn "Error getting formats: "
                       (CalledProcessError cmd rc)) s1)
    | NoSuchProgram => (Raise (FileNotFoundError cmd), s1)
    end.
Proof.
  unfold App.get_available_formats, bind, get_cookies_path, print,
    try_except, subprocess_run.
  cbn [calls log_line cookies_path]. cbv zeta.
  destruct (run_result w (calls s) _) as [rc|];
    [destruct (rc =? 0)%Z|]; reflexivity.
Qed.

Lemma cli_formats_run w url c s :
  Cli.get_available_formats w url c s
  = let cmd := Listing.cli_formats_cmd url c in
    match run_result w (calls s) cmd with
    | Exited rc =>
        if (rc =? 0)%Z then (Ret tt, log_call cmd s)
        else
          (Ret tt,
           log_line (TextExn "Error getting formats: "
                       (CalledProcessError cmd rc)) (log_call cmd s))
    | NoSuchProgram => (Raise (FileNotFoundError cmd), log_call cmd s)
    end.
Proof.
  unfold Cli.get_available_formats, Listing.cli_formats_cmd, bind, print,
    try_except, subprocess_run.
  cbv zeta.
  destruct (run_result w (calls s) _) as [rc|];
    [destruct (rc =? 0)%Z|]; reflexivity.
Qed.

(** X4: a listing of formats that fails does not end the program: whatever
    status the external process leaves, [get_available_formats] of
    either front end returns normally after that one call, and a nonzero
    status only adds one printed line. *)
Theorem failed_listing_returns_normally (w : world) (s : state) (rc : Z) :
  (forall url uc,
      run_result w (calls s) (App.formats_cmd (cookies_path s) url uc)
      = Exited rc ->
      fst (App.get_available_formats w url uc s) = Ret tt
      /\ calls (snd (App.get_available_formats w url uc s))
         = calls s ++ [App.formats_cmd (cookies_path s) url uc]
      /\ stdout (snd (App.get_available_formats w url uc s))
         = stdout s
           ++ Text (nl ++ "📋 Available formats:")
              :: (if (rc =? 0)%Z then []
                  else [TextExn "Error getting formats: "
                          (CalledProcessError
                             (App.formats_cmd (cookies_path s) url uc) rc)]))
  /\ (forall url c,
         run_result w (calls s) (Listing.cli_formats_cmd url c) = Exited rc ->
         fst (Cli.get_available_formats w url c s) = Ret tt
         /\ calls (snd (Cli.get_available_formats w url c s))
            = calls s ++ [Listing.cli_formats_cmd url c]
         /\ stdout (snd (Cli.get_available_formats w url c s))
            = stdout s
              ++ (if (rc =? 0)%Z then []
                  else [TextExn "Error getting formats: "
                          (CalledProcessError
                             (Listing.cli_formats_cmd url c) rc)])).
Proof.
  split.
  - intros url uc H. rewrite app_formats_run. cbv zeta. rewrite H.
    destruct (rc =? 0)%Z; cbn [fst snd calls stdout log_line log_call];
      rewrite <- ?app_assoc; auto.
  - intros url c H. rewrite cli_formats_run. cbv zeta. rewrite H.
    destruct (rc =? 0)%Z; cbn [fst snd calls stdout log_line log_call];
      rewrite ?app_nil_r; auto.
Qed.

Lemma failed_listing_returns_normally_witness :
  fst (Cli.get_available_formats Scenario.download_exits_2
         "https://example.com/watch?v=1" None
         (log_call Scenario.version_cmd init_state)) = Ret tt.
Proof.
  exact (proj1 (proj2 (failed_listing_returns_normally
                         Scenario.download_exits_2
                         (log_call Scenario.version_cmd init_state) 2)
                  "https://example.com/watch?v=1" None eq_refl)).
Defined.

(** X5: the listing of the flag-parsing front end passes a cookies path on
    without looking for the file, and prints no warning: the command
    is the same in every file system, also where [download] would leave
    [--cookies] out. *)
Theorem cli_listing_does_not_check_cookies (w : world) (url p : string)
    (s : state) :
  p <> "" ->
  calls (snd (Cli.get_available_formats w url (Some p) s))
  = calls s ++ [["yt-dlp"; "-F"; url; "--cookies"; p]]
  /\ forall l,
      In l (stdout (snd (Cli.get_available_formats w url (Some p) s))) ->
      In l (stdout s) \/ exists e, l = TextExn "Error getting formats: " e.
Proof.
  intros Hp.
  assert (E : Listing.cli_formats_cmd url (Some p)
              = ["yt-dlp"; "-F"; url; "--cookies"; p]).
  { unfold Listing.cli_formats_cmd.
    rewrite (opt_truthy_some (Some p) p eq_refl Hp). reflexivity. }
  rewrite cli_formats_run. cbv zeta. rewrite E.
  destruct (run_result w (calls s) _) as [rc|];
    [destruct (rc =? 0)%Z|];
    cbn [fst snd calls stdout log_line log_call];
    (split; [reflexivity|]); intros l Hl; auto.
  apply in_app_or in Hl. destruct Hl as [Hl|[<-|[]]]; [now left|].
  right. eexists. reflexivity.
Qed.

Lemma cli_listing_does_not_check_cookies_witness :
  calls (snd (Cli.get_available_formats Scenario.all_fine "u"
                (Some "missing.txt") init_state))
  = [["yt-dlp"; "-F"; "u"; "--cookies"; "missing.txt"]].
Proof.
  assert (Hne : "missing.txt" <> "") by discriminate.
  exact (proj1 (cli_listing_does_not_check_cookies Scenario.all_fine "u"
                  "missing.txt" init_state Hne)).
Defined.

(** ** The dialogue *)

Lemma app_prompt_use_cookies_run answer s :
  App.prompt_use_cookies answer s
  = (Ret (Listing.use_cookies_answer (cookies_path s) answer), s).
Proof.
  unfold App.prompt_use_cookies, Listing.use_cookies_answer, bind,
    get_cookies_path, ret.
  now destruct (negb (opt_truthy (cookies_path s))).
Qed.

Lemma app_settings_and_download_run w user us dtype s :
  App.settings_and_download w user us dtype s
  = let s1 := log_line (Text (nl ++ str_mul "=" 50)) s in
    if App.ans_confirm user then
      App.download w user
        (Update.dialogue_request user (cookies_path s) us dtype) s1
    else (Ret tt, log_line (Text (nl ++ "❌ Download canceled.")) s1).
Proof.
  unfold App.settings_and_download. unfold bind at 1.
  rewrite app_prompt_use_cookies_run.
  unfold bind, get_cookies_path, print, Update.dialogue_request,
    Listing.use_cookies_answer.
  cbv zeta. destruct (App.ans_confirm user); reflexivity.
Qed.

(** X6: when the user declines the final confirmation, the dialogue ends
    normally with the cancellation message and runs nothing. *)
Theorem declined_confirmation_runs_nothing w user us dtype s :
  App.ans_confirm user = false ->
  fst (App.settings_and_download w user us dtype s) = Ret tt
  /\ calls (snd (App.settings_and_download w user us dtype s)) = calls s
  /\ stdout (snd (App.settings_and_download w user us dtype s))
     = stdout s
       ++ [Text (nl ++ str_mul "=" 50);
           Text (nl ++ "❌ Download canceled.")].
Proof.
  intros H. rewrite app_settings_and_download_run. cbv zeta. rewrite H.
  cbn [fst snd calls stdout log_line]. rewrite <- app_assoc. auto.
Qed.

Lemma declined_confirmation_runs_nothing_witness :
  calls (snd (App.settings_and_download Scenario.all_fine Declining.user
                Scenario.one_url "video" init_state)) = [].
Proof.
  exact (proj1 (proj2 (declined_confirmation_runs_nothing Scenario.all_fine
                         Declining.user Scenario.one_url "video" init_state
                         eq_refl))).
Defined.

Lemma browser_value_in_browsers (b : App.browser_choice) :
  In (App.browser_value b) Update.browsers.
Proof. destruct b; simpl; tauto. Qed.

(** X7: in a confirmed dialogue the download that is run authenticates as
    the answers say: with the cookies file when one was found and the
    user accepted it, otherwise with the cookies of the browser the user
    asked for (one of the six offered names), otherwise not at all. *)
Theorem dialogue_authentication w user us dtype s :
  App.ans_confirm user = true ->
  let r := Update.dialogue_request user (cookies_path s) us dtype in
  calls (snd (App.settings_and_download w user us dtype s))
  = calls s
    ++ [App.download_cmd (cookies_path s) (App.ans_format_choice user) r]
  /\ App.auth_part (cookies_path s) r
     = (if opt_truthy (cookies_path s) && App.ans_use_cookies user then
          [Fixed "--cookies"; Given (opt_str (cookies_path s))]
        else if App.ans_want_browser user then
          [Fixed "--cookies-from-browser";
           Given (App.browser_value (App.ans_browser user))]
        else [])
  /\ In (App.browser_value (App.ans_browser user)) Update.browsers.
Proof.
  intros H r. split; [|split].
  - rewrite app_settings_and_download_run. cbv zeta. rewrite H.
    rewrite app_download_calls. reflexivity.
  - subst r. unfold App.auth_part, Update.dialogue_request.
    cbn [App.use_cookies App.browser_cookies].
    destruct (opt_truthy (cookies_path s)) eqn:Ht;
      destruct (App.ans_use_cookies user);
      destruct (App.ans_want_browser user);
      cbn [negb andb orb opt_truthy opt_str]; try reflexivity.
    + destruct (App.ans_browser user); reflexivity.
    + destruct (App.ans_browser user); reflexivity.
    + destruct (App.ans_browser user); reflexivity.
  - apply browser_value_in_browsers.
Qed.

Lemma dialogue_authentication_witness :
  calls (snd (App.settings_and_download Scenario.all_fine
                Scenario.plain_user Scenario.one_url "video" init_state))
  = [App.download_cmd None "bestvideo+bestaudio"
       (Update.dialogue_request Scenario.plain_user None Scenario.one_url
          "video")].
Proof.
  exact (proj1 (dialogue_authentication Scenario.all_fine
                  Scenario.plain_user Scenario.one_url "video" init_state
                  eq_refl)).
Defined.

(** X8: a failed listing does not end the dialogue either: when the user
    asks for the list of formats first, the formats of the first URL
    alone are listed with one call, and whatever status that process
    leaves the dialogue goes on with the type chosen at the second
    prompt. *)
Theorem listing_then_second_choice w user u us s rc :
  App.ans_download_type user = App.ListFirst ->
  let uc :=
    Listing.use_cookies_answer (cookies_path s)
      (App.ans_list_use_cookies user) in
  run_result w (calls s) (App.formats_cmd (cookies_path s) u uc)
  = Exited rc ->
  fst (App.choose_download_type w user (u :: us) s)
  = Ret (App.type_value (App.ans_download_type_again user))
  /\ calls (snd (App.choose_download_type w user (u :: us) s))
     = calls s ++ [App.formats_cmd (cookies_path s) u uc].
Proof.
  intros Ht uc Hr.
  assert (E : App.choose_download_type w user (u :: us) s
              = (Ret (App.type_value (App.ans_download_type_again user)),
                 snd (App.get_available_formats w u uc s))).
  { unfold App.choose_download_type. cbv zeta. rewrite Ht.
    cbn [App.type_value String.eqb Ascii.eqb Bool.eqb App.first_url].
    unfold bind, ret. rewrite app_prompt_use_cookies_run. fold uc.
    rewrite app_formats_run. cbv zeta. rewrite Hr.
    destruct (rc =? 0)%Z; reflexivity. }
  rewrite E. cbn [fst snd]. split; [reflexivity | apply app_formats_calls].
Qed.

Lemma listing_then_second_choice_witness :
  fst (App.choose_download_type Scenario.download_exits_2
         Dialogue.list_first_user Scenario.one_url
         (log_call Scenario.version_cmd init_state))
  = Ret "video".
Proof.
  exact (proj1 (listing_then_second_choice Scenario.download_exits_2
                  Dialogue.list_first_user "https://example.com/watch?v=1" []
                  (log_call Scenario.version_cmd init_state) 2
                  eq_refl eq_refl)).
Defined.

(** Any other first choice is returned as it is, and nothing is run. *)
Theorem direct_choice_runs_nothing w user us s :
  App.ans_download_type user <> App.ListFirst ->
  App.choose_download_type w user us s
  = (Ret (App.type_value (App.ans_download_type user)), s).
Proof.
  intros H. unfold App.choose_download_type. cbv zeta.
  destruct (App.ans_download_type user); try reflexivity.
  now contradiction H.
Qed.

Lemma direct_choice_runs_nothing_witness :
  App.choose_download_type Scenario.all_fine Scenario.plain_user
    Scenario.one_url init_state
  = (Ret "video", init_state).
Proof.
  assert (Hne : App.VideoBest <> App.ListFirst) by discriminate.
  exact (direct_choice_runs_nothing Scenario.all_fine Scenario.plain_user
           Scenario.one_url init_state Hne).
Defined.

(** ** More of the flag table *)

Lemma cli_flag_if_fixed b flag t :
  In t (fixed_of (Cli.flag_if b flag)) <-> b = true /\ t = flag.
Proof.
  unfold Cli.flag_if. destruct b; simpl; intuition congruence.
Qed.

Lemma app_flag_if_fixed name flag r t :
  In t (fixed_of (App.flag_if name flag r))
  <-> In name (opt_list (App.extra_options r)) /\ t = flag.
Proof.
  unfold App.flag_if.
  rewrite <- (str_in_iff name (opt_list (App.extra_options r))).
  destruct (str_in name _); simpl; intuition congruence.
Qed.

Ltac other_blocks H :=
  try discriminate H; try (absurd_block H; fail).

Lemma cli_metadata_flags_emitted w r :
  (In "--add-metadata" (Cli.emitted w r) <-> Cli.metadata r = true)
  /\ (In "--embed-thumbnail" (Cli.emitted w r) <-> Cli.thumbnail r = true)
  /\ (In "--sponsorblock-remove" (Cli.emitted w r)
      <-> Cli.sponsorblock r = true).
Proof.
  rewrite !cli_emitted_in. repeat split.
  - intros [H|[H|[H|[H|[H|[H|[H|[H|H]]]]]]]]; other_blocks H.
    now apply cli_flag_if_fixed in H.
  - intros H. do 6 right. left. now apply cli_flag_if_fixed.
  - intros [H|[H|[H|[H|[H|[H|[H|[H|H]]]]]]]]; other_blocks H.
    now apply cli_flag_if_fixed in H.
  - intros H. do 7 right. left. now apply cli_flag_if_fixed.
  - intros [H|[H|[H|[H|[H|[H|[H|[H|H]]]]]]]]; other_blocks H.
    now apply cli_flag_if_fixed in H.
  - intros H. do 8 right. now apply cli_flag_if_fixed.
Qed.

Lemma app_metadata_flags_emitted sc fc r :
  (In "--add-metadata" (App.emitted sc fc r)
   <-> In "metadata" (opt_list (App.extra_options r)))
  /\ (In "--embed-thumbnail" (App.emitted sc fc r)
      <-> In "thumbnail" (opt_list (App.extra_options r)))
  /\ (In "--sponsorblock-remove" (App.emitted sc fc r)
      <-> In "sponsorblock" (opt_list (App.extra_options r))).
Proof.
  rewrite !app_emitted_in, !app_extra_fixed_in. repeat split.
  - intros [H|[H|[H|[H|[_ [H|[H|[H|[H|H]]]]]]]]]; other_blocks H.
    now apply app_flag_if_fixed in H.
  - intros H. do 4 right. split; [now apply in_opt_list_truthy in H|].
    do 2 right. left. now apply app_flag_if_fixed.
  - intros [H|[H|[H|[H|[_ [H|[H|[H|[H|H]]]]]]]]]; other_blocks H.
    now apply app_flag_if_fixed in H.
  - intros H. do 4 right. split; [now apply in_opt_list_truthy in H|].
    do 3 right. left. now apply app_flag_if_fixed.
  - intros [H|[H|[H|[H|[_ [H|[H|[H|[H|H]]]]]]]]]; other_blocks H.
    now apply app_flag_if_fixed in H.
  - intros H. do 4 right. split; [now apply in_opt_list_truthy in H|].
    do 4 right. now apply app_flag_if_fixed.
Qed.

(** X9: the metadata, thumbnail and SponsorBlock options each put their one
    flag into the command exactly when the option is selected, in both
    front ends; unlike [--no-playlist], this also holds for an empty
    selection in the interactive one. *)
Theorem metadata_thumbnail_sponsorblock_flags :
  (forall w r,
      (In "--add-metadata" (Cli.emitted w r) <-> Cli.metadata r = true)
      /\ (In "--embed-thumbnail" (Cli.emitted w r)
          <-> Cli.thumbnail r = true)
      /\ (In "--sponsorblock-remove" (Cli.emitted w r)
          <-> Cli.sponsorblock r = true))
  /\ (forall sc fc r,
         (In "--add-metadata" (App.emitted sc fc r)
          <-> In "metadata" (opt_list (App.extra_options r)))
         /\ (In "--embed-thumbnail" (App.emitted sc fc r)
             <-> In "thumbnail" (opt_list (App.extra_options r)))
         /\ (In "--sponsorblock-remove" (App.emitted sc fc r)
             <-> In "sponsorblock" (opt_list (App.extra_options r))))
  /\ (forall w r t, In t (Cli.emitted w r) -> In t (Cli.download_cmd w r))
  /\ (forall sc fc r t,
         In t (App.emitted sc fc r) -> In t (App.download_cmd sc fc r)).
Proof.
  split; [exact cli_metadata_flags_emitted|].
  split; [exact app_metadata_flags_emitted|]. split.
  - intros w r t H. apply cli_cmd_in. now left.
  - intros sc fc r t H. apply app_cmd_in. now left.
Qed.

(** ** The output template *)

(** X10: a non-empty output template is passed as [-o template]; with an
    empty one (the interactive field cleared, or no [--output]) the
    builder emits no [-o] and [yt-dlp] names the file. *)
Theorem output_template_flag :
  (forall sc fc r,
      (App.output_template r <> "" ->
       consecutive ["-o"; App.output_template r] (App.download_cmd sc fc r))
      /\ (App.output_template r = "" -> ~ In "-o" (App.emitted sc fc r)))
  /\ (forall w r,
         (forall t, Cli.output_template r = Some t -> t <> "" ->
                    consecutive ["-o"; t] (Cli.download_cmd w r))
         /\ (opt_truthy (Cli.output_template r) = false ->
             ~ In "-o" (Cli.emitted w r))).
Proof.
  split.
  - intros sc fc r. split.
    + intros Hne.
      rewrite app_download_cmd_parts. unfold App.download_parts.
      unfold App.output_part, str_truthy.
      destruct (String.eqb_spec (App.output_template r) "");
        [contradiction|].
      exists ("yt-dlp" :: map text (App.auth_part sc r
                                    ++ App.format_part fc r)).
      eexists.
      rewrite map_cons, !map_app. cbn [app]. rewrite <- !app_assoc.
      cbn [map text app negb]. reflexivity.
    + intros He. rewrite app_emitted_in, app_extra_fixed_in.
      unfold App.output_part at 1. rewrite He. cbn [str_truthy String.eqb negb].
      intros [H|[H|[H|[H|[_ [H|[H|[H|[H|H]]]]]]]]]; other_blocks H.
  - intros w r. split.
    + intros t Ht Hne.
      rewrite cli_download_cmd_parts. unfold Cli.download_parts.
      unfold Cli.output_part.
      rewrite (opt_truthy_some _ _ Ht Hne), Ht.
      exists ("yt-dlp" :: map text (Cli.auth_part w r ++ Cli.format_part r)).
      eexists.
      rewrite map_cons, !map_app. cbn [app]. rewrite <- !app_assoc.
      cbn [map text app opt_str]. reflexivity.
    + intros He. rewrite cli_emitted_in.
      unfold Cli.output_part at 1. rewrite He.
      intros [H|[H|[H|[H|[H|[H|[H|[H|H]]]]]]]]; other_blocks H.
Qed.

Lemma output_template_flag_witness :
  consecutive ["-o"; "%(title)s.%(ext)s"]
    (App.download_cmd None "" Requests.nothing_selected).
Proof.
  assert (Hne : App.output_template Requests.nothing_selected <> "")
    by discriminate.
  exact (proj1 (proj1 output_template_flag None ""
                  Requests.nothing_selected) Hne).
Defined.

(** ** A download type that selects no format *)

(** X11: [download] of the interactive front end adds a format block only for
    the types [video], [audio] and [custom].  For any other type, such
    as [list] when the user asks for the list of formats at the second
    prompt as well, no format option is emitted and [yt-dlp] chooses. *)
Theorem other_type_selects_no_format sc fc r :
  App.download_type r <> "video" ->
  App.download_type r <> "audio" ->
  App.download_type r <> "custom" ->
  App.format_part fc r = []
  /\ (forall t,
         In t ["-f"; "--extract-audio"; "--audio-format"] ->
         ~ In t (App.emitted sc fc r))
  /\ App.download_cmd sc fc r
     = ("yt-dlp" :: map text (App.auth_part sc r))
       ++ map text (App.output_part r ++ App.extra_part r) ++ App.urls r.
Proof.
  intros Hv Ha Hc.
  assert (E : App.format_part fc r = []).
  { unfold App.format_part.
    destruct (String.eqb_spec (App.download_type r) "video");
      [contradiction|].
    destruct (String.eqb_spec (App.download_type r) "audio");
      [contradiction|].
    destruct (String.eqb_spec (App.download_type r) "custom");
      [contradiction|].
    reflexivity. }
  split; [exact E|]. split.
  - intros t Ht. rewrite app_emitted_in, app_extra_fixed_in, E.
    destruct Ht as [<-|[<-|[<-|[]]]];
      intros [H|[H|[H|[H|[_ [H|[H|[H|[H|H]]]]]]]]]; other_blocks H;
      try contradiction.
  - rewrite app_cmd_around_format, E. reflexivity.
Qed.

Lemma other_type_selects_no_format_witness :
  App.format_part ""
    (Update.dialogue_request Dialogue.list_first_user None Scenario.one_url
       (App.type_value App.ListFirst)) = [].
Proof.
  assert (H1 : "list" <> "video") by discriminate.
  assert (H2 : "list" <> "audio") by discriminate.
  assert (H3 : "list" <> "custom") by discriminate.
  exact (proj1 (other_type_selects_no_format None ""
                  (Update.dialogue_request Dialogue.list_first_user None
                     Scenario.one_url (App.type_value App.ListFirst))
                  H1 H2 H3)).
Defined.

(** ** The selection of extra options as a set *)

Lemma str_in_ext (x : string) (l1 l2 : list string) :
  (forall y, In y l1 <-> In y l2) -> str_in x l1 = str_in x l2.
Proof.
  intros H. destruct (str_in x l2) eqn:E.
  - apply str_in_iff, H, str_in_iff, E.
  - apply str_in_false_iff. intros Hx.
    apply (proj1 (str_in_false_iff x l2) E), H, Hx.
Qed.

Lemma list_truthy_ext (l1 l2 : list string) :
  (forall y, In y l1 <-> In y l2) ->
  list_truthy (Some l1) = list_truthy (Some l2).
Proof.
  intros H. destruct l1 as [|a l1], l2 as [|b l2]; try reflexivity.
  - destruct (proj2 (H b) (or_introl eq_refl)).
  - destruct (proj1 (H a) (or_introl eq_refl)).
Qed.

(** X12: the interactive builder looks at the selected extra options only
    through membership: two selections with the same members, in any
    order and with any repetition, give the same command, and the flags
    always come in the builder's own order. *)
Theorem extra_options_order_is_irrelevant sc fc r (l1 l2 : list string) :
  (forall y, In y l1 <-> In y l2) ->
  App.download_cmd sc fc (Update.app_with_extra_options (Some l1) r)
  = App.download_cmd sc fc (Update.app_with_extra_options (Some l2) r).
Proof.
  intros H.
  unfold App.download_cmd, App.add_extra_options, App.add_output_template,
    App.add_format_selection, App.add_authentication,
    Update.app_with_extra_options.
  cbn [App.urls App.download_type App.output_template App.extra_options
       App.subtitle_langs App.use_cookies App.browser_cookies opt_list].
  rewrite (list_truthy_ext l1 l2 H).
  rewrite (str_in_ext "subtitles" l1 l2 H), (str_in_ext "playlist" l1 l2 H),
    (str_in_ext "metadata" l1 l2 H), (str_in_ext "thumbnail" l1 l2 H),
    (str_in_ext "sponsorblock" l1 l2 H).
  reflexivity.
Qed.

Lemma extra_options_order_is_irrelevant_witness :
  App.download_cmd None ""
    (Update.app_with_extra_options
       (Some ["sponsorblock"; "metadata"; "metadata"])
       Requests.nothing_selected)
  = App.download_cmd None ""
      (Update.app_with_extra_options (Some ["metadata"; "sponsorblock"])
         Requests.nothing_selected).
Proof.
  apply (extra_options_order_is_irrelevant None "" Requests.nothing_selected
           ["sponsorblock"; "metadata"; "metadata"]
           ["metadata"; "sponsorblock"]).
  intros y. simpl. tauto.
Defined.

(** ** The shape of the command *)

(** X13: every download command is [yt-dlp], then the options, then the URLs
    in the order given; the options do not depend on the URLs. *)
Theorem urls_come_last :
  (forall sc fc r,
      exists options,
        forall us,
          App.download_cmd sc fc (Update.app_with_urls us r)
          = "yt-dlp" :: options ++ us)
  /\ (forall w r,
         exists options,
           forall us,
             Cli.download_cmd w (Update.cli_with_urls us r)
             = "yt-dlp" :: options ++ us).
Proof.
  split.
  - intros sc fc r.
    exists (map text (App.auth_part sc r ++ App.format_part fc r
                      ++ App.output_part r ++ App.extra_part r)).
    intros us. rewrite app_download_cmd_parts. unfold App.download_parts.
    rewrite map_cons, !map_app, text_given, <- !app_assoc. reflexivity.
  - intros w r.
    exists (map text
              (Cli.auth_part w r ++ Cli.format_part r ++ Cli.output_part r
               ++ Cli.subtitles_part r ++ Cli.playlist_part r
               ++ Cli.flag_if (Cli.metadata r) "--add-metadata"
               ++ Cli.flag_if (Cli.thumbnail r) "--embed-thumbnail"
               ++ Cli.flag_if (Cli.sponsorblock r) "--sponsorblock-remove")).
    intros us. rewrite cli_download_cmd_parts. unfold Cli.download_parts.
    rewrite map_cons, !map_app, text_given, <- !app_assoc. reflexivity.
Qed.

(** ** A cookies file that exists *)

(** X14: in the flag-parsing front end a named cookies file that exists is
    passed as [--cookies path] right after [yt-dlp]; a browser given to
    [download] as well is ignored, and no warning is printed. *)
Theorem existing_cookies_file_is_used w r s p :
  Cli.cookies r = Some p -> p <> "" -> path_exists w p = true ->
  (exists rest, Cli.download_cmd w r = "yt-dlp" :: "--cookies" :: p :: rest)
  /\ ~ In "--cookies-from-browser" (Cli.emitted w r)
  /\ Cli.warned w r s = s.
Proof.
  intros Hr Hp He. pose proof (opt_truthy_some _ _ Hr Hp) as Ht.
  assert (E : Cli.auth_part w r = [Fixed "--cookies"; Given p]).
  { unfold Cli.auth_part. rewrite Ht, Hr. cbn [opt_str]. now rewrite He. }
  split; [|split].
  - rewrite cli_cmd_around_format, E. eexists. reflexivity.
  - intros H. apply cli_cookie_flag_in_auth in H; [|now right].
    rewrite E in H. simpl in H. intuition discriminate.
  - unfold Cli.warned. rewrite Ht, Hr. cbn [opt_str]. now rewrite He.
Qed.

Lemma existing_cookies_file_is_used_witness :
  exists rest,
    Cli.download_cmd Scenario.with_cookies_txt CookieRequests.both_sources
    = "yt-dlp" :: "--cookies" :: "cookies.txt" :: rest.
Proof.
  assert (Hne : "cookies.txt" <> "") by discriminate.
  exact (proj1 (existing_cookies_file_is_used Scenario.with_cookies_txt
                  CookieRequests.both_sources init_state "cookies.txt"
                  eq_refl Hne eq_refl)).
Defined.

(** ** What a download prints *)

(** X15: a download that succeeds prints nothing in the flag-parsing front
    end unless a named cookies file is missing, and exactly the success
    line in the interactive one; a download that fails adds exactly one
    error line naming the command and its status. *)
Theorem download_output w s rc :
  (forall user r,
      run_result w (calls s)
        (App.download_cmd (cookies_path s) (App.ans_format_choice user) r)
      = Exited rc ->
      stdout (snd (App.download w user r s))
      = stdout s
        ++ [if (rc =? 0)%Z then
              Text (nl ++ "✅ Download completed successfully!")
            else
              TextExn (nl ++ "❌ Error downloading video: ")
                (CalledProcessError
                   (App.download_cmd (cookies_path s)
                      (App.ans_format_choice user) r) rc)])
  /\ (forall r,
         run_result w (calls s) (Cli.download_cmd w r) = Exited rc ->
         stdout (snd (Cli.download w r s))
         = stdout (Cli.warned w r s)
           ++ (if (rc =? 0)%Z then []
               else [TextExn "Error downloading video: "
                       (CalledProcessError (Cli.download_cmd w r) rc)])).
Proof.
  split.
  - intros user r H. rewrite app_download_run. cbv zeta. rewrite H.
    now destruct (rc =? 0)%Z.
  - intros r H. rewrite cli_download_run. cbv zeta. rewrite H.
    destruct (rc =? 0)%Z; cbn [snd stdout log_line log_call];
      now rewrite ?app_nil_r.
Qed.

Lemma download_output_witness :
  stdout (snd (Cli.download Scenario.all_fine
                 (Cli.default_request Scenario.one_url) init_state)) = [].
Proof.
  exact (proj2 (download_output Scenario.all_fine init_state 0)
           (Cli.default_request Scenario.one_url) eq_refl).
Defined.

(** ** The first URL *)

Lemma app_choose_list_outcome w user u us s :
  App.ans_download_type user = App.ListFirst ->
  fst (App.choose_download_type w user (u :: us) s) <> Raise IndexError.
Proof.
  intros Ht.
  unfold App.choose_download_type. cbv zeta. rewrite Ht.
  cbn [App.type_value String.eqb Ascii.eqb Bool.eqb App.first_url].
  unfold bind, ret. rewrite app_prompt_use_cookies_run.
  rewrite app_formats_run. cbv zeta.
  destruct (run_result w (calls s) _) as [rc|];
    [destruct (rc =? 0)%Z|]; cbn [fst]; discriminate.
Qed.

(** X16: when the user asks for the list of formats, [urls[0]] raises
    [IndexError] exactly for an answer that the validation of the URL
    prompt rejects; for such an answer nothing is run. *)
Theorem index_error_only_without_validation w user s :
  App.ans_download_type user = App.ListFirst ->
  (fst (App.choose_download_type w user (split (App.ans_url user)) s)
   = Raise IndexError
   <-> Prompt.validate (App.ans_url user) = false)
  /\ (Prompt.validate (App.ans_url user) = false ->
      calls (snd (App.choose_download_type w user
                    (split (App.ans_url user)) s)) = calls s).
Proof.
  intros Ht.
  pose proof (validate_iff_split (App.ans_url user)) as Hv.
  destruct (split (App.ans_url user)) as [|u us] eqn:Es.
  - assert (Hf : Prompt.validate (App.ans_url user) = false).
    { destruct (Prompt.validate (App.ans_url user)); [|reflexivity].
      now destruct (proj1 Hv eq_refl). }
    assert (E : App.choose_download_type w user [] s = (Raise IndexError, s)).
    { unfold App.choose_download_type. cbv zeta. now rewrite Ht. }
    rewrite E. cbn [fst snd]. tauto.
  - assert (Hy : Prompt.validate (App.ans_url user) = true)
      by (apply Hv; discriminate).
    split.
    + split.
      * intros H. now apply app_choose_list_outcome in H.
      * rewrite Hy. discriminate.
    + rewrite Hy. discriminate.
Qed.

Lemma index_error_only_without_validation_witness :
  fst (App.choose_download_type Scenario.all_fine Dialogue.list_first_user
         (split (App.ans_url Dialogue.list_first_user)) init_state)
  <> Raise IndexError.
Proof.
  intros H.
  apply (proj1 (proj1 (index_error_only_without_validation Scenario.all_fine
                         Dialogue.list_first_user init_state eq_refl))) in H.
  vm_compute in H. discriminate H.
Defined.
